(** * django2go: a shallow embedding of [main.go] and of its embedded
      extractor script, with the properties of the schema and migration
      generators.

    Go strings are byte sequences; they are modelled by [string], whose
    characters are the bytes.  The Go and Python library functions the
    program calls are modelled in their own modules ([utf8], [unicode],
    [strings], [Builder], [fmt_time]); the functions of the repository keep
    their names. *)

From Stdlib Require Import ZArith List Bool Ascii String Lia Permutation.
From Stdlib Require Import Numbers.DecimalString.
Import ListNotations.

Local Open Scope string_scope.
Local Open Scope Z_scope.

(** ** Bytes and strings *)

Definition LF : string := String (ascii_of_nat 10) EmptyString.

Definition bval (c : ascii) : Z := Z.of_N (N_of_ascii c).
Definition chr (z : Z) : ascii := ascii_of_N (Z.to_N z).

Fixpoint map_bytes (f : ascii -> ascii) (s : string) : string :=
  match s with
  | EmptyString => EmptyString
  | String c s' => String (f c) (map_bytes f s')
  end.

Fixpoint all_bytes (p : ascii -> bool) (s : string) : bool :=
  match s with
  | EmptyString => true
  | String c s' => p c && all_bytes p s'
  end.

Fixpoint skipn_string (n : nat) (s : string) : string :=
  match n, s with
  | O, _ => s
  | S _, EmptyString => EmptyString
  | S k, String _ s' => skipn_string k s'
  end.

(** The string of the given byte values. *)
Definition bytes (l : list Z) : string :=
  string_of_list_ascii (map chr l).

(** [s[:n]] *)
Definition take (n : nat) (s : string) : string := substring 0 n s.

(** ** Go's [unicode/utf8] *)

Module utf8.

Definition RuneError : Z := 0xFFFD.
Definition RuneSelf : Z := 0x80.
Definition MaxRune : Z := 0x10FFFF.

Definition surrogate (r : Z) : bool := (0xD800 <=? r) && (r <=? 0xDFFF).

(** A Unicode scalar value. *)
Definition ValidRune (r : Z) : bool :=
  (0 <=? r) && (r <=? MaxRune) && negb (surrogate r).

(** The range the second byte of a sequence must lie in, by first byte. *)
Definition accept_lo (b0 : Z) : Z :=
  if b0 =? 0xE0 then 0xA0 else if b0 =? 0xF0 then 0x90 else 0x80.
Definition accept_hi (b0 : Z) : Z :=
  if b0 =? 0xED then 0x9F else if b0 =? 0xF4 then 0x8F else 0xBF.

Definition cont (b : Z) : bool := (0x80 <=? b) && (b <=? 0xBF).
Definition second (b0 b1 : Z) : bool :=
  (accept_lo b0 <=? b1) && (b1 <=? accept_hi b0).

(** [utf8.DecodeRuneInString]: the first rune of [s] and its width in
    bytes; an ill-formed or truncated sequence gives [(RuneError, 1)]. *)
Definition DecodeRuneInString (s : string) : Z * nat :=
  match s with
  | EmptyString => (RuneError, 0%nat)
  | String c0 s1 =>
    let b0 := bval c0 in
    if b0 <? RuneSelf then (b0, 1%nat)
    else if (0xC2 <=? b0) && (b0 <=? 0xDF) then
      match s1 with
      | String c1 _ =>
        let b1 := bval c1 in
        if cont b1 then ((b0 - 0xC0) * 64 + (b1 - 0x80), 2%nat)
        else (RuneError, 1%nat)
      | _ => (RuneError, 1%nat)
      end
    else if (0xE0 <=? b0) && (b0 <=? 0xEF) then
      match s1 with
      | String c1 (String c2 _) =>
        let b1 := bval c1 in
        let b2 := bval c2 in
        if second b0 b1 && cont b2
        then ((b0 - 0xE0) * 4096 + (b1 - 0x80) * 64 + (b2 - 0x80), 3%nat)
        else (RuneError, 1%nat)
      | _ => (RuneError, 1%nat)
      end
    else if (0xF0 <=? b0) && (b0 <=? 0xF4) then
      match s1 with
      | String c1 (String c2 (String c3 _)) =>
        let b1 := bval c1 in
        let b2 := bval c2 in
        let b3 := bval c3 in
        if second b0 b1 && cont b2 && cont b3
        then ((b0 - 0xF0) * 262144 + (b1 - 0x80) * 4096
              + (b2 - 0x80) * 64 + (b3 - 0x80), 4%nat)
        else (RuneError, 1%nat)
      | _ => (RuneError, 1%nat)
      end
    else (RuneError, 1%nat)
  end.

Definition encode3 (r : Z) : string :=
  String (chr (0xE0 + r / 4096))
    (String (chr (0x80 + (r / 64) mod 64))
       (String (chr (0x80 + r mod 64)) EmptyString)).

(** [utf8.AppendRune] on an empty slice: the UTF-8 encoding of [r]; a rune
    out of range or a surrogate half is written as [RuneError]. *)
Definition EncodeRune (r : Z) : string :=
  if (0 <=? r) && (r <? 0x80) then String (chr r) EmptyString
  else if (0 <=? r) && (r <? 0x800) then
    String (chr (0xC0 + r / 64)) (String (chr (0x80 + r mod 64)) EmptyString)
  else if negb (ValidRune r) then encode3 RuneError
  else if r <? 0x10000 then encode3 r
  else
    String (chr (0xF0 + r / 262144))
      (String (chr (0x80 + (r / 4096) mod 64))
         (String (chr (0x80 + (r / 64) mod 64))
            (String (chr (0x80 + r mod 64)) EmptyString))).

End utf8.

(** ** Go's [unicode] *)

Module unicode.

Definition MaxASCII : Z := 0x7F.

(** [unicode.ToLower]: ASCII is handled in line; the other runes go
    through the case tables of the Go runtime, [To(LowerCase, r)], which
    are a parameter [caseLower] of the model. *)
Definition ToLower (caseLower : Z -> Z) (r : Z) : Z :=
  if r <=? MaxASCII then
    (if (65 <=? r) && (r <=? 90) then r + 32 else r)
  else caseLower r.

End unicode.

(** ** Go's [strings] *)

Module strings.

(** [s] starts with [p]. *)
Fixpoint HasPrefix (s p : string) : bool :=
  match p, s with
  | EmptyString, _ => true
  | String a p', String b s' => Ascii.eqb a b && HasPrefix s' p'
  | String _ _, EmptyString => false
  end.

(** Replacement of the non-overlapping occurrences of a non-empty [old],
    left to right; [skip] counts the bytes of a match still to be passed
    over.  Python's [str.replace] does the same. *)
Fixpoint replace_from (old new : string) (skip : nat) (s : string) : string :=
  match s with
  | EmptyString => EmptyString
  | String c s' =>
    match skip with
    | S k => replace_from old new k s'
    | O =>
      if HasPrefix s old
      then new ++ replace_from old new (String.length old - 1) s'
      else String c (replace_from old new 0 s')
    end
  end.

Definition ReplaceAll (s old new : string) : string :=
  replace_from old new 0 s.

(** [strings.Map]: the runes of [s], each mapped and encoded again; a
    negative result drops the rune.  [skip] counts the bytes of the
    current rune still to be passed over. *)
Fixpoint Map_from (mapping : Z -> Z) (skip : nat) (s : string) : string :=
  match s with
  | EmptyString => EmptyString
  | String _ s' =>
    match skip with
    | S k => Map_from mapping k s'
    | O =>
      let '(c, width) := utf8.DecodeRuneInString s in
      let r := mapping c in
      (if 0 <=? r then utf8.EncodeRune r else EmptyString)
        ++ Map_from mapping (width - 1) s'
    end
  end.

Definition Map (mapping : Z -> Z) (s : string) : string :=
  Map_from mapping 0 s.

(** The runes that [for _, c := range s] goes through. *)
Fixpoint runes_from (skip : nat) (s : string) : list Z :=
  match s with
  | EmptyString => []
  | String _ s' =>
    match skip with
    | S k => runes_from k s'
    | O =>
      let '(c, width) := utf8.DecodeRuneInString s in
      c :: runes_from (width - 1) s'
    end
  end.

Definition runes (s : string) : list Z := runes_from 0 s.

Definition isASCII (c : ascii) : bool := bval c <? utf8.RuneSelf.

Definition lowerByte (c : ascii) : ascii :=
  let b := bval c in
  if (65 <=? b) && (b <=? 90) then chr (b + 32) else c.

(** [strings.ToLower]: a string of ASCII bytes is lowered byte by byte,
    any other string rune by rune through [strings.Map]. *)
Definition ToLower (caseLower : Z -> Z) (s : string) : string :=
  if all_bytes isASCII s then map_bytes lowerByte s
  else Map (unicode.ToLower caseLower) s.

(** [strings.Join] *)
Definition Join (elems : list string) (sep : string) : string :=
  String.concat sep elems.

End strings.

(** ** The builder of [generateSQL] and [generateDownSQL]

    The source declares the builder as a [strings.Builder] and calls
    [Truncate] on it in [generateSQL].  [strings.Builder] declares no such
    method, so the file as it stands is refused by the Go compiler.  The
    model is of the program with the builder read as a [bytes.Buffer],
    whose [Truncate] keeps the first [n] bytes and panics when [n] is
    negative or larger than the length ([None] is the panic).  What is
    proved of the separator trimmed by [generateSQL] is proved of that
    reading, not of the source as written. *)

Module Builder.

Definition t := string.

Definition empty : t := EmptyString.
Definition WriteString (sb : t) (s : string) : t := sb ++ s.
Definition Len (sb : t) : Z := Z.of_nat (String.length sb).
Definition Truncate (sb : t) (n : Z) : option t :=
  if (n <? 0) || (Len sb <? n) then None else Some (take (Z.to_nat n) sb).
Definition String (sb : t) : string := sb.

End Builder.

(** A [for _, x := range xs] loop whose body can panic. *)
Fixpoint range {A S : Type} (xs : list A) (body : S -> A -> option S) (s : S)
  : option S :=
  match xs with
  | [] => Some s
  | x :: xs' =>
    match body s x with
    | None => None
    | Some s' => range xs' body s'
    end
  end.

(** ** The data model of [main.go] *)

Module Field.
Record t : Set := mk {
  Name : string;
  Type_ : string;
  Nullable : bool;
  Unique : bool;
  Relation : string;
  RelatedTo : string
}.
End Field.

Module Model.
Record t : Set := mk {
  Name : string;
  Fields : list Field.t
}.
End Model.

Module Output.
Record t : Set := mk {
  Models : list Model.t;
  Queries : list string
}.
End Output.

(** ** The generators *)

Section Generators.

(** The lower-case table of the Go runtime for the runes above ASCII. *)
Variable caseLower : Z -> Z.

(** [toSnake] *)
Definition toSnake (s : string) : string :=
  strings.ToLower caseLower (strings.ReplaceAll s " " "_").

(** [sqlType] *)
Definition sqlType (ftype dialect : string) : string :=
  if (ftype =? "CharField")%string || (ftype =? "TextField")%string then "TEXT"
  else if (ftype =? "IntegerField")%string then "INTEGER"
  else if (ftype =? "FloatField")%string then "REAL"
  else if (ftype =? "BooleanField")%string then "BOOLEAN"
  else if (ftype =? "DateField")%string || (ftype =? "DateTimeField")%string then "TIMESTAMP"
  else "TEXT".

(** The first loop over the fields of [generateSQL]: one column each. *)
Definition writeColumn (dialect : string) (sb : Builder.t) (f : Field.t)
  : Builder.t :=
  let col := "    " ++ toSnake (Field.Name f) ++ " "
               ++ sqlType (Field.Type_ f) dialect in
  let col := if negb (Field.Nullable f) then col ++ " NOT NULL" else col in
  let col := if Field.Unique f then col ++ " UNIQUE" else col in
  Builder.WriteString sb (col ++ "," ++ LF).

(** The second loop: the constraint of a foreign key or one-to-one. *)
Definition writeForeignKey (sb : Builder.t) (f : Field.t) : Builder.t :=
  if (Field.Relation f =? "foreignkey")%string || (Field.Relation f =? "one2one")%string
  then Builder.WriteString sb
         ("    FOREIGN KEY (" ++ toSnake (Field.Name f) ++ "_id) REFERENCES "
            ++ toSnake (Field.RelatedTo f) ++ "(id)," ++ LF)
  else sb.

(** The third loop: the join table of a many-to-many field. *)
Definition writeJoinTable (m : Model.t) (sb : Builder.t) (f : Field.t)
  : Builder.t :=
  if (Field.Relation f =? "many2many")%string
  then
    let join := toSnake (Model.Name m) ++ "_" ++ toSnake (Field.Name f) in
    Builder.WriteString sb
      ("CREATE TABLE " ++ join ++ " (" ++ LF
         ++ "    " ++ toSnake (Model.Name m) ++ "_id INTEGER REFERENCES "
         ++ toSnake (Model.Name m) ++ "(id)," ++ LF
         ++ "    " ++ toSnake (Field.RelatedTo f) ++ "_id INTEGER REFERENCES "
         ++ toSnake (Field.RelatedTo f) ++ "(id)" ++ LF
         ++ ");" ++ LF ++ LF)
  else sb.

(** The body of the loop over the models of [generateSQL]. *)
Definition writeModel (dialect : string) (sb : Builder.t) (m : Model.t)
  : option Builder.t :=
  let sb := Builder.WriteString sb
              ("CREATE TABLE " ++ toSnake (Model.Name m) ++ " (" ++ LF) in
  let sb := Builder.WriteString sb ("    id SERIAL PRIMARY KEY," ++ LF) in
  let sb := fold_left (writeColumn dialect) (Model.Fields m) sb in
  let sb := fold_left writeForeignKey (Model.Fields m) sb in
  match Builder.Truncate sb (Builder.Len sb - 2) with
  | None => None
  | Some sb =>
    let sb := Builder.WriteString sb (LF ++ ");" ++ LF ++ LF) in
    Some (fold_left (writeJoinTable m) (Model.Fields m) sb)
  end.

(** [generateSQL]; [None] is a panic of [Truncate]. *)
Definition generateSQL (models : list Model.t) (dialect : string)
  : option string :=
  match range models (writeModel dialect) Builder.empty with
  | None => None
  | Some sb => Some (Builder.String sb)
  end.

Definition writeJoinDrop (m : Model.t) (sb : Builder.t) (f : Field.t)
  : Builder.t :=
  if (Field.Relation f =? "many2many")%string
  then Builder.WriteString sb
         ("DROP TABLE IF EXISTS " ++ toSnake (Model.Name m) ++ "_"
            ++ toSnake (Field.Name f) ++ ";" ++ LF)
  else sb.

Definition writeDrops (sb : Builder.t) (m : Model.t) : Builder.t :=
  let sb := fold_left (writeJoinDrop m) (Model.Fields m) sb in
  Builder.WriteString sb
    ("DROP TABLE IF EXISTS " ++ toSnake (Model.Name m) ++ ";" ++ LF).

(** [generateDownSQL] *)
Definition generateDownSQL (models : list Model.t) (dialect : string) : string :=
  Builder.String (fold_left writeDrops models Builder.empty).

End Generators.

(** [generateSQLCConfig] *)
Definition generateSQLCConfig (dialect : string) : string :=
  "version: " ++ String (ascii_of_nat 34) "2" ++ String (ascii_of_nat 34) LF
  ++ "sql:" ++ LF
  ++ "  - engine: " ++ dialect ++ LF
  ++ "    queries: " ++ String (ascii_of_nat 34) "./query.sql"
  ++ String (ascii_of_nat 34) LF
  ++ "    schema: " ++ String (ascii_of_nat 34) "./schema.sql"
  ++ String (ascii_of_nat 34) LF
  ++ "    gen:" ++ LF
  ++ "      go:" ++ LF
  ++ "        package: " ++ String (ascii_of_nat 34) "db"
  ++ String (ascii_of_nat 34) LF
  ++ "        out: " ++ String (ascii_of_nat 34) "./db"
  ++ String (ascii_of_nat 34) LF.

(** ** The extractor script of [pythonScript]

    Python text is modelled by its UTF-8 bytes.  The syntax tree is the part
    of Python's [ast] the script looks at. *)

Module ast.

(** The value carried by a literal, as far as [json.dumps] and Go's
    [json.Unmarshal] tell values apart: [VOther] is any value that is
    neither [None], a [bool], an [int] nor a [str] (a float, bytes, a
    syntax-tree node, ...). *)
Inductive value : Set :=
| VNone
| VBool (b : bool)
| VInt (n : Z)
| VStr (s : string)
| VOther.

(** [OtherExpr] is a node of any class that has none of the attributes
    [id], [attr], [value] and [s] ([BinOp], [List], [Dict], ...); a
    [Tuple] is such a node too, and is kept apart only for the
    examples. *)
#[local] Unset Elimination Schemes.
Inductive expr : Set :=
| Name (id : string)
| Attribute (value : expr) (attr : string)
| Constant (v : value)
| Call (func : expr) (args : list expr) (keywords : list (option string * expr))
| Subscript (value : expr) (slice : expr)
| Starred (value : expr)
| Tuple (elts : list expr)
| OtherExpr.

(** [OtherStmt] is any statement that is neither an [Assign] nor a
    [ClassDef]: [Pass], [FunctionDef], [AnnAssign], [Expr], ... *)
Inductive stmt : Set :=
| Assign (targets : list expr) (value : expr)
| ClassDef (name : string) (bases : list expr) (body : list stmt)
| OtherStmt.
#[local] Set Elimination Schemes.

End ast.

Module Py.

Inductive exn : Set :=
| SyntaxError
| OSError
| AttributeError
| IndexError.

Inductive outcome (A : Type) : Type :=
| Ok (a : A)
| Raise (e : exn).
Arguments Ok {A} a.
Arguments Raise {A} e.

Definition bind {A B : Type} (x : outcome A) (k : A -> outcome B)
  : outcome B :=
  match x with
  | Ok a => k a
  | Raise e => Raise e
  end.

Notation "x <- c ;; k" := (bind c (fun x => k))
  (at level 61, c at next level, right associativity).

(** A [for] loop whose body can raise. *)
Fixpoint for_ {A S : Type} (xs : list A) (body : S -> A -> outcome S) (s : S)
  : outcome S :=
  match xs with
  | [] => Ok s
  | x :: xs' => s' <- body s x ;; for_ xs' body s'
  end.

(** One file met by [os.walk]: [code] is what [f.read()] returns and
    [parsed] what [ast.parse] makes of it; [None] is the exception that
    [open] or [read], and [ast.parse], raise. *)
Record SourceFile : Set := mkFile {
  root : string;
  file : string;
  code : option string;
  parsed : option (list ast.stmt)
}.

(** The dictionaries appended to [fields] and to [result]. *)
Record field : Set := mkField {
  name : string;
  type : string;
  nullable : ast.value;
  unique : ast.value;
  relation : option string;
  related_to : option string
}.

Record model : Set := mkModel {
  mname : string;
  fields : list field
}.

(** *** String methods *)

Fixpoint endswith_rev (s suffix : list ascii) : bool :=
  match suffix, s with
  | [], _ => true
  | a :: suffix', b :: s' => Ascii.eqb a b && endswith_rev s' suffix'
  | _ :: _, [] => false
  end.

Definition endswith (s suffix : string) : bool :=
  endswith_rev (rev (list_ascii_of_string s)) (rev (list_ascii_of_string suffix)).

(** [sub in s] *)
Fixpoint contains (s sub : string) : bool :=
  strings.HasPrefix s sub ||
  match s with
  | EmptyString => false
  | String _ s' => contains s' sub
  end.

(** [str.lower], on ASCII text. *)
Definition lower (s : string) : string := map_bytes strings.lowerByte s.

Definition replace (s old new : string) : string :=
  strings.replace_from old new 0 s.

(** The line boundaries of [str.splitlines], the two-byte one first. *)
Definition line_boundaries : list string :=
  [ bytes [13; 10]; bytes [10]; bytes [13]; bytes [11]; bytes [12];
    bytes [28]; bytes [29]; bytes [30]; bytes [0xC2; 0x85];
    bytes [0xE2; 0x80; 0xA8]; bytes [0xE2; 0x80; 0xA9] ].

(** The white space of [str.strip]. *)
Definition whitespace : list string :=
  [ bytes [9]; bytes [10]; bytes [11]; bytes [12]; bytes [13];
    bytes [28]; bytes [29]; bytes [30]; bytes [31]; bytes [32];
    bytes [0xC2; 0x85]; bytes [0xC2; 0xA0]; bytes [0xE1; 0x9A; 0x80];
    bytes [0xE2; 0x80; 0x80]; bytes [0xE2; 0x80; 0x81];
    bytes [0xE2; 0x80; 0x82]; bytes [0xE2; 0x80; 0x83];
    bytes [0xE2; 0x80; 0x84]; bytes [0xE2; 0x80; 0x85];
    bytes [0xE2; 0x80; 0x86]; bytes [0xE2; 0x80; 0x87];
    bytes [0xE2; 0x80; 0x88]; bytes [0xE2; 0x80; 0x89];
    bytes [0xE2; 0x80; 0x8A]; bytes [0xE2; 0x80; 0xA8];
    bytes [0xE2; 0x80; 0xA9]; bytes [0xE2; 0x80; 0xAF];
    bytes [0xE2; 0x81; 0x9F]; bytes [0xE3; 0x80; 0x80] ].

(** The first of [ps] that [s] starts with. *)
Definition prefix_among (ps : list string) (s : string) : option string :=
  find (strings.HasPrefix s) ps.

Fixpoint splitlines_from (cur : string) (skip : nat) (s : string)
  : list string :=
  match s with
  | EmptyString => if (cur =? "")%string then [] else [cur]
  | String c s' =>
    match skip with
    | S k => splitlines_from cur k s'
    | O =>
      match prefix_among line_boundaries s with
      | Some b => cur :: splitlines_from "" (String.length b - 1) s'
      | None => splitlines_from (cur ++ String c "") 0 s'
      end
    end
  end.

Definition splitlines (s : string) : list string := splitlines_from "" 0 s.

Fixpoint lstrip_from (skip : nat) (s : string) : string :=
  match s with
  | EmptyString => EmptyString
  | String c s' =>
    match skip with
    | S k => lstrip_from k s'
    | O =>
      match prefix_among whitespace s with
      | Some b => lstrip_from (String.length b - 1) s'
      | None => s
      end
    end
  end.

Definition reverse (s : string) : string :=
  string_of_list_ascii (rev (list_ascii_of_string s)).

Fixpoint rstrip_from (skip : nat) (s : string) : string :=
  match s with
  | EmptyString => EmptyString
  | String c s' =>
    match skip with
    | S k => rstrip_from k s'
    | O =>
      match prefix_among (map reverse whitespace) s with
      | Some b => rstrip_from (String.length b - 1) s'
      | None => s
      end
    end
  end.

Definition strip (s : string) : string :=
  reverse (rstrip_from 0 (reverse (lstrip_from 0 s))).

(** *** The syntax-tree accessors the script uses *)

(** [b.id if isinstance(b, ast.Name) else ""] *)
Definition id_or_empty (e : ast.expr) : string :=
  match e with
  | ast.Name id => id
  | _ => ""
  end.

(** [e.id] *)
Definition get_id (e : ast.expr) : outcome string :=
  match e with
  | ast.Name id => Ok id
  | _ => Raise AttributeError
  end.

(** [l[0]] *)
Definition first {A : Type} (l : list A) : outcome A :=
  match l with
  | x :: _ => Ok x
  | [] => Raise IndexError
  end.

(** [getattr(e, 's', getattr(e, 'value', None))]: a literal gives its
    value (an [ast.Constant], as Python 3.8 and later parse every literal),
    a node with a [value] child gives that child, a node. *)
Definition s_or_value (e : ast.expr) : ast.value :=
  match e with
  | ast.Constant v => v
  | ast.Attribute _ _ | ast.Subscript _ _ | ast.Starred _ => ast.VOther
  | _ => ast.VNone
  end.

(** [kwargs.get(key, False)] on the dictionary built from the keywords in
    order, a later keyword replacing an earlier one of the same name. *)
Definition kwargs_get (keywords : list (option string * ast.expr))
    (key : string) : ast.value :=
  fold_left
    (fun acc (k : option string * ast.expr) =>
       match fst k with
       | Some a => if (a =? key)%string then s_or_value (snd k) else acc
       | None => acc
       end)
    keywords (ast.VBool false).

Definition relation_constructors : list string :=
  ["ForeignKey"; "OneToOneField"; "ManyToManyField"].

Definition mem (s : string) (l : list string) : bool :=
  existsb (String.eqb s) l.

(** *** [extract_models] *)

(** The body of [for stmt in node.body]. *)
Definition class_stmt (fields : list field) (stmt : ast.stmt)
  : outcome (list field) :=
  match stmt with
  | ast.Assign targets (ast.Call func args keywords) =>
    target <- first targets ;;
    fname <- get_id target ;;
    let ftype := match func with
                 | ast.Attribute _ attr => attr
                 | _ => ""
                 end in
    let nullable := kwargs_get keywords "null" in
    let unique := kwargs_get keywords "unique" in
    rel <- (if mem ftype relation_constructors
            then
              let related := replace (lower ftype) "field" "" in
              arg <- first args ;;
              Ok (Some related, Some (id_or_empty arg))
            else Ok (None, None)) ;;
    Ok (fields ++ [mkField fname ftype nullable unique (fst rel) (snd rel)])%list
  | _ => Ok fields
  end.

(** The body of [for node in tree.body]. *)
Definition top_level (result : list model) (node : ast.stmt)
  : outcome (list model) :=
  match node with
  | ast.ClassDef name bases body =>
    if mem "Model" (map id_or_empty bases)
    then
      fields <- for_ body class_stmt [] ;;
      Ok (result ++ [mkModel name fields])%list
    else Ok result
  | _ => Ok result
  end.

(** The lines of one file kept for [query.sql]. *)
Definition query_lines (file code : string) : list string :=
  if contains code ".objects."
  then
    map (fun line => "-- from: " ++ file ++ LF ++ "-- " ++ strip line)
      (filter
         (fun line =>
            contains line ".objects."
            && (contains line "filter(" || contains line "get("
                || contains line "create("))
         (splitlines code))
  else [].

(** The body of [for file in files], for the files that [os.walk]
    yields in order. *)
Definition scan_file (acc : list model * list string) (f : SourceFile)
  : outcome (list model * list string) :=
  if endswith (file f) ".py"
  then
    match code f with
    | None => Raise OSError
    | Some text =>
      match parsed f with
      | None => Raise SyntaxError
      | Some body =>
        result <- for_ body top_level (fst acc) ;;
        Ok (result, (snd acc ++ query_lines (file f) text)%list)
      end
    end
  else Ok acc.

(** [extract_models], up to the [print]: the two lists it dumps. *)
Definition extract_models (walk : list SourceFile)
  : outcome (list model * list string) :=
  for_ walk scan_file ([], []).

End Py.

(** ** Go's [time], as far as [timestamp] uses it *)

Module time.

(** A reading of the wall clock, as civil date and time. *)
Record Time : Set := mk {
  Year : nat;
  Month : nat;
  Day : nat;
  Hour : nat;
  Minute : nat;
  Second : nat
}.

Fixpoint zeros (n : nat) : string :=
  match n with
  | O => EmptyString
  | S k => String "0" (zeros k)
  end.

(** Decimal, padded with zeros to [width] digits. *)
Definition pad (width n : nat) : string :=
  let d := NilEmpty.string_of_uint (Nat.to_uint n) in
  zeros (width - String.length d) ++ d.

(** [t.Format("20060102150405")] *)
Definition Format_20060102150405 (t : Time) : string :=
  pad 4 (Year t) ++ pad 2 (Month t) ++ pad 2 (Day t)
  ++ pad 2 (Hour t) ++ pad 2 (Minute t) ++ pad 2 (Second t).

End time.

(** ** The run of [main]

    The world a run acts on: the wall clock, read once per call of
    [time.Now]; what [os.walk] finds under a path; and [written], the calls
    of [write] in order, each with the path and the content handed to
    [os.WriteFile].  Whether the file system takes a write is not modelled:
    the source drops the errors of [os.MkdirAll] and [os.WriteFile], so a
    call recorded in [written] need not leave a file.  Standard output is
    left out. *)

Record World : Type := mkWorld {
  clock : nat -> time.Time;
  readings : nat;
  walk : string -> list Py.SourceFile;
  written : list (string * string)
}.

Inductive Exit : Set :=
| Returned
| Exited (code : Z)
| Panicked.

Record Flags : Set := mkFlags {
  input : string;
  output : string;
  dialect : string;
  dryRun : bool
}.

(** [time.Now] *)
Definition time_Now (w : World) : time.Time * World :=
  (clock w (readings w),
   mkWorld (clock w) (S (readings w)) (walk w) (written w)).

(** [timestamp] *)
Definition timestamp (w : World) : string * World :=
  let (t, w) := time_Now w in (time.Format_20060102150405 t, w).

(** [write]: the call is recorded; the source drops the error of
    [os.WriteFile], and the model does not say whether a file results. *)
Definition write (path content : string) (w : World) : World :=
  mkWorld (clock w) (readings w) (walk w) (written w ++ [(path, content)])%list.

(** What [json.dumps] followed by [json.Unmarshal] into a Go [bool] makes of
    a value: [None] is a value that [dumps] cannot serialise or that is not
    a JSON boolean or null. *)
Definition unmarshal_bool (v : ast.value) : option bool :=
  match v with
  | ast.VBool b => Some b
  | ast.VNone => Some false
  | _ => None
  end.

(** A JSON string or null into a Go [string]. *)
Definition unmarshal_string (v : option string) : string :=
  match v with
  | Some s => s
  | None => ""
  end.

Definition unmarshal_field (f : Py.field) : option Field.t :=
  match unmarshal_bool (Py.nullable f), unmarshal_bool (Py.unique f) with
  | Some n, Some u =>
    Some (Field.mk (Py.name f) (Py.type f) n u
            (unmarshal_string (Py.relation f))
            (unmarshal_string (Py.related_to f)))
  | _, _ => None
  end.

Fixpoint unmarshal_list {A B : Type} (f : A -> option B) (l : list A)
  : option (list B) :=
  match l with
  | [] => Some []
  | x :: l' =>
    match f x, unmarshal_list f l' with
    | Some y, Some ys => Some (y :: ys)
    | _, _ => None
    end
  end.

Definition unmarshal_model (m : Py.model) : option Model.t :=
  match unmarshal_list unmarshal_field (Py.fields m) with
  | Some fs => Some (Model.mk (Py.mname m) fs)
  | None => None
  end.

(** [runPythonParser], with a [python3] to execute: [None] is a non-nil
    [err], from the exit status of the script (an uncaught exception) or
    from [json.Unmarshal]. *)
Definition runPythonParser (path : string) (w : World) : option Output.t :=
  match Py.extract_models (walk w path) with
  | Py.Raise _ => None
  | Py.Ok (models, queries) =>
    match unmarshal_list unmarshal_model models with
    | Some ms => Some (Output.mk ms queries)
    | None => None
    end
  end.

Section Main.

Variable caseLower : Z -> Z.

(** [filepath.Join] of two elements. *)
Variable filepath_Join : string -> string -> string.

(** [main], after [flag.Parse]. *)
Definition main (flags : Flags) (w : World) : Exit * World :=
  if (input flags =? "")%string then (Exited 1, w)
  else
    match runPythonParser (input flags) w with
    | None => (Exited 1, w)
    | Some out =>
      if dryRun flags then (Returned, w)
      else
        let migrations := filepath_Join (output flags) "migrations" in
        match generateSQL caseLower (Output.Models out) (dialect flags) with
        | None => (Panicked, w)
        | Some schema =>
          let w := write (filepath_Join (output flags) "schema.sql") schema w in
          let (ts, w) := timestamp w in
          match generateSQL caseLower (Output.Models out) (dialect flags) with
          | None => (Panicked, w)
          | Some up =>
            let w := write (filepath_Join migrations
                              (ts ++ "_create_tables.up.sql")) up w in
            let (ts, w) := timestamp w in
            let w := write (filepath_Join migrations
                              (ts ++ "_create_tables.down.sql"))
                       (generateDownSQL caseLower (Output.Models out)
                          (dialect flags)) w in
            let w := write (filepath_Join (output flags) "query.sql")
                       (strings.Join (Output.Queries out) (LF ++ LF)) w in
            let w := write (filepath_Join (output flags) "sqlc.yaml")
                       (generateSQLCConfig (dialect flags)) w in
            (Returned, w)
          end
        end
    end.

End Main.

(** ** The text of the generated statements

    What the loops of [generateSQL] and [generateDownSQL] write, as
    functions of the model: the entries of a table are joined by the
    separator that the source writes after each and trims after the last. *)

Fixpoint cat (l : list string) : string :=
  match l with
  | [] => EmptyString
  | s :: l' => s ++ cat l'
  end.

Definition SEP : string := "," ++ LF.

Section Texts.

Variable caseLower : Z -> Z.

Definition columnEntry (dialect : string) (f : Field.t) : string :=
  let col := "    " ++ toSnake caseLower (Field.Name f) ++ " "
               ++ sqlType (Field.Type_ f) dialect in
  let col := if negb (Field.Nullable f) then col ++ " NOT NULL" else col in
  if Field.Unique f then col ++ " UNIQUE" else col.

Definition foreignKeyEntries (f : Field.t) : list string :=
  if (Field.Relation f =? "foreignkey")%string
     || (Field.Relation f =? "one2one")%string
  then ["    FOREIGN KEY (" ++ toSnake caseLower (Field.Name f)
          ++ "_id) REFERENCES " ++ toSnake caseLower (Field.RelatedTo f)
          ++ "(id)"]
  else [].

Definition tableEntries (dialect : string) (m : Model.t) : list string :=
  ("    id SERIAL PRIMARY KEY"
     :: map (columnEntry dialect) (Model.Fields m)
     ++ flat_map foreignKeyEntries (Model.Fields m))%list.

Definition joinTableText (m : Model.t) (f : Field.t) : string :=
  writeJoinTable caseLower m Builder.empty f.

Definition tableText (dialect : string) (m : Model.t) : string :=
  "CREATE TABLE " ++ toSnake caseLower (Model.Name m) ++ " (" ++ LF
  ++ String.concat SEP (tableEntries dialect m)
  ++ LF ++ ");" ++ LF ++ LF
  ++ cat (map (joinTableText m) (Model.Fields m)).

Definition joinDropText (m : Model.t) (f : Field.t) : string :=
  writeJoinDrop caseLower m Builder.empty f.

Definition dropsText (m : Model.t) : string :=
  cat (map (joinDropText m) (Model.Fields m))
  ++ "DROP TABLE IF EXISTS " ++ toSnake caseLower (Model.Name m) ++ ";" ++ LF.

End Texts.

(** ** The example of the README *)

Definition Book : Model.t :=
  Model.mk "Book"
    [ Field.mk "title" "CharField" false false "" "";
      Field.mk "author" "ForeignKey" false false "foreignkey" "Author";
      Field.mk "tags" "ManyToManyField" false false "many2many" "Tag" ].

(** ** What the snake-case transform asks of the case tables

    The lower-case mapping of the runes above ASCII sends a Unicode scalar
    value to a Unicode scalar value, which it leaves as it is when applied
    again, and never to the space. *)

Record LowerTable (caseLower : Z -> Z) : Prop := {
  lower_valid : forall r, utf8.ValidRune r = true -> unicode.MaxASCII < r ->
                          utf8.ValidRune (caseLower r) = true;
  lower_stable : forall r, utf8.ValidRune r = true -> unicode.MaxASCII < r ->
                           unicode.ToLower caseLower (caseLower r) = caseLower r;
  lower_no_space : forall r, utf8.ValidRune r = true -> unicode.MaxASCII < r ->
                             caseLower r <> 32
}.

(** The case pairs of Latin-1 and the Kelvin sign, a part of the Unicode
    table. *)
Definition latin1Lower (r : Z) : Z :=
  if (0xC0 <=? r) && (r <=? 0xDE) && negb (r =? 0xD7) then r + 32
  else if r =? 0x212A then 0x6B
  else r.

Definition nospace (c : ascii) : bool := negb (Ascii.eqb c " ").

(** [utf8.ValidRune], as a proposition. *)
Definition valid (r : Z) : Prop :=
  0 <= r <= 0x10FFFF /\ ~ (0xD800 <= r <= 0xDFFF).

(** ** Example inputs *)

(** [class Book(Model)] with one text field. *)
Definition models_py : Py.SourceFile :=
  Py.mkFile "app" "models.py"
    (Some ("class Book(Model):" ++ LF
           ++ "    title = models.CharField(max_length=255)" ++ LF))
    (Some [ast.ClassDef "Book" [ast.Name "Model"]
             [ast.Assign [ast.Name "title"]
                (ast.Call (ast.Attribute (ast.Name "models") "CharField") []
                   [(Some "max_length", ast.Constant (ast.VInt 255))])]]).

(** A file that [ast.parse] rejects. *)
Definition broken_py : Py.SourceFile :=
  Py.mkFile "app" "broken.py" (Some ("class Broken(Model:" ++ LF)) None.

(** [a, b = f()] in the body of a model class. *)
Definition tuple_target : ast.stmt :=
  ast.Assign [ast.Tuple [ast.Name "a"; ast.Name "b"]]
    (ast.Call (ast.Name "f") [] []).

Definition tuple_py : Py.SourceFile :=
  Py.mkFile "app" "pairs.py"
    (Some ("class Pair(Model):" ++ LF ++ "    a, b = f()" ++ LF))
    (Some [ast.ClassDef "Pair" [ast.Name "Model"] [tuple_target]]).

(** [author = models.ForeignKey()] in the body of a model class. *)
Definition no_argument : ast.stmt :=
  ast.Assign [ast.Name "author"]
    (ast.Call (ast.Attribute (ast.Name "models") "ForeignKey") [] []).

Definition noarg_py : Py.SourceFile :=
  Py.mkFile "app" "noarg.py"
    (Some ("class Post(Model):" ++ LF
           ++ "    author = models.ForeignKey()" ++ LF))
    (Some [ast.ClassDef "Post" [ast.Name "Model"] [no_argument]]).

Definition example_flags : Flags := mkFlags "app" "out" "postgres" false.

(** A world whose clock passes from 13:14:59 to 13:15:00 between the first
    and the second reading. *)
Definition second_boundary (n : nat) : time.Time :=
  match n with
  | O => time.mk 2025 4 10 13 14 59
  | S _ => time.mk 2025 4 10 13 15 0
  end.

Definition world_of (files : list Py.SourceFile) : World :=
  mkWorld second_boundary 0 (fun _ => files) [].

(** [filepath.Join] on two clean relative paths. *)
Definition join_slash (a b : string) : string := a ++ "/" ++ b.

(** [My Über Model], in UTF-8. *)
Definition uber_name : string := "My " ++ bytes [0xC3; 0x9C] ++ "ber Model".

(** What [runPythonParser] returns for [models_py]. *)
Definition book_output : Output.t :=
  Output.mk [Model.mk "Book" [Field.mk "title" "CharField" false false "" ""]] [].

(** A model that is related to itself. *)
Definition Person : Model.t :=
  Model.mk "Person"
    [ Field.mk "friends" "ManyToManyField" false false "many2many" "Person" ].

(** ** Tables created and dropped

    The tables of a list of models, as [generateSQL] creates and
    [generateDownSQL] drops them: a model's own table, and a join table for
    each of its many-to-many fields. *)

Definition many2many (f : Field.t) : bool :=
  (Field.Relation f =? "many2many")%string.

Section Tables.
Variable caseLower : Z -> Z.

Definition joinName (m : Model.t) (f : Field.t) : string :=
  toSnake caseLower (Model.Name m) ++ "_" ++ toSnake caseLower (Field.Name f).

Definition joinBody (m : Model.t) (f : Field.t) : string :=
  "    " ++ toSnake caseLower (Model.Name m) ++ "_id INTEGER REFERENCES "
  ++ toSnake caseLower (Model.Name m) ++ "(id)," ++ LF
  ++ "    " ++ toSnake caseLower (Field.RelatedTo f) ++ "_id INTEGER REFERENCES "
  ++ toSnake caseLower (Field.RelatedTo f) ++ "(id)".

Definition createdTables (dialect : string) (models : list Model.t)
  : list (string * string) :=
  flat_map
    (fun m =>
       (toSnake caseLower (Model.Name m),
        String.concat SEP (tableEntries caseLower dialect m))
       :: map (fun f => (joinName m f, joinBody m f))
            (filter many2many (Model.Fields m)))
    models.

Definition droppedTables (models : list Model.t) : list string :=
  flat_map
    (fun m =>
       map (joinName m) (filter many2many (Model.Fields m))
       ++ [toSnake caseLower (Model.Name m)])%list
    models.

End Tables.

Definition createStmt (t : string * string) : string :=
  "CREATE TABLE " ++ fst t ++ " (" ++ LF ++ snd t ++ LF ++ ");" ++ LF ++ LF.

Definition dropStmt (name : string) : string :=
  "DROP TABLE IF EXISTS " ++ name ++ ";" ++ LF.

(** A field that the generators treat as a column only. *)
Definition plain (f : Field.t) : Prop :=
  Field.Relation f <> "foreignkey" /\ Field.Relation f <> "one2one" /\
  Field.Relation f <> "many2many".

(** ** Extractions one after the other *)

Definition is_py (f : Py.SourceFile) : bool := Py.endswith (Py.file f) ".py".

(** The result of two extractions, one after the other. *)
Definition then_ {A B : Type} (x : Py.outcome (list A * list B))
    (y : Py.outcome (list A * list B)) : Py.outcome (list A * list B) :=
  match x with
  | Py.Raise e => Py.Raise e
  | Py.Ok (a1, b1) =>
    match y with
    | Py.Raise e => Py.Raise e
    | Py.Ok (a2, b2) => Py.Ok ((a1 ++ a2)%list, (b1 ++ b2)%list)
    end
  end.

Definition then_list {A : Type} (x y : Py.outcome (list A)) : Py.outcome (list A) :=
  match x with
  | Py.Raise e => Py.Raise e
  | Py.Ok a1 =>
    match y with
    | Py.Raise e => Py.Raise e
    | Py.Ok a2 => Py.Ok (a1 ++ a2)%list
    end
  end.

Definition pair_app (a b : list Py.model * list string)
  : list Py.model * list string :=
  ((fst a ++ fst b)%list, (snd a ++ snd b)%list).

(** ** The snake-case transform on ASCII *)

(** What [toSnake] does to one ASCII byte. *)
Definition snakeByte (c : ascii) : ascii :=
  strings.lowerByte (if Ascii.eqb c " " then "_"%char else c).

Definition capital (c : ascii) : bool := (65 <=? bval c) && (bval c <=? 90).

(** ** More example inputs *)

(** The flags of a dry run. *)
Definition dry_flags : Flags := mkFlags "app" "out" "postgres" true.

(** A world whose clock stands at 13:15:00. *)
Definition steady_world (files : list Py.SourceFile) : World :=
  mkWorld (fun _ => time.mk 2025 4 10 13 15 0) 0 (fun _ => files) [].

(** [class Book(models.Model)] with a body that would raise. *)
Definition qualified_base : ast.stmt :=
  ast.ClassDef "Book" [ast.Attribute (ast.Name "models") "Model"] [tuple_target].

(** [tags], as the extractor hands a many-to-many field to the generators. *)
Definition extracted_tags : Field.t :=
  Field.mk "tags" "ManyToManyField" false false "manytomany" "Tag".

(** [flag = models.BooleanField(null=1)] in the body of a model class. *)
Definition null_one_py : Py.SourceFile :=
  Py.mkFile "app" "flags.py"
    (Some ("class Flag(Model):" ++ LF
           ++ "    flag = models.BooleanField(null=1)" ++ LF))
    (Some [ast.ClassDef "Flag" [ast.Name "Model"]
             [ast.Assign [ast.Name "flag"]
                (ast.Call (ast.Attribute (ast.Name "models") "BooleanField") []
                   [(Some "null", ast.Constant (ast.VInt 1))])]]).

(** * Properties *)

(** ** Strings *)

Lemma append_assoc (a b c : string) : (a ++ b) ++ c = a ++ (b ++ c).
Proof.
  induction a as [|x a IH]; simpl; [reflexivity|now rewrite IH].
Qed.

Lemma append_nil_r (a : string) : a ++ "" = a.
Proof.
  induction a as [|x a IH]; simpl; [reflexivity|now rewrite IH].
Qed.

Lemma length_append (a b : string) :
  String.length (a ++ b) = (String.length a + String.length b)%nat.
Proof.
  induction a as [|x a IH]; simpl; [reflexivity|now rewrite IH].
Qed.

Lemma take_append (a b : string) : take (String.length a) (a ++ b) = a.
Proof.
  unfold take. induction a as [|x a IH]; simpl.
  - destruct b; reflexivity.
  - now rewrite IH.
Qed.

Lemma cat_app (l1 l2 : list string) : cat (l1 ++ l2)%list = cat l1 ++ cat l2.
Proof.
  induction l1 as [|s l1 IH]; simpl; [reflexivity|].
  now rewrite IH, append_assoc.
Qed.

(** Writing every entry followed by the separator, and then dropping the
    last separator, joins the entries. *)
Lemma cat_sep_concat (sep e : string) (es : list string) :
  cat (map (fun x => x ++ sep) (e :: es)) = String.concat sep (e :: es) ++ sep.
Proof.
  revert e. induction es as [|e' es IH]; intros e.
  - simpl. now rewrite append_nil_r.
  - change (cat (map (fun x => x ++ sep) (e :: e' :: es)))
      with ((e ++ sep) ++ cat (map (fun x => x ++ sep) (e' :: es))).
    rewrite IH.
    change (String.concat sep (e :: e' :: es))
      with (e ++ sep ++ String.concat sep (e' :: es)).
    now rewrite !append_assoc.
Qed.

(** ** The string builder *)

Lemma fold_write {A : Type} (w : Builder.t -> A -> Builder.t) (g : A -> string) :
  (forall sb x, w sb x = sb ++ g x) ->
  forall xs sb, fold_left w xs sb = sb ++ cat (map g xs).
Proof.
  intros Hw xs. induction xs as [|x xs IH]; intros sb; simpl.
  - now rewrite append_nil_r.
  - now rewrite IH, Hw, append_assoc.
Qed.

(** Truncating by the two bytes of the separator never panics. *)
Lemma Truncate_SEP (sb : Builder.t) :
  Builder.Truncate (sb ++ SEP) (Builder.Len (sb ++ SEP) - 2) = Some sb.
Proof.
  unfold Builder.Truncate, Builder.Len.
  rewrite length_append. change (String.length SEP) with 2%nat.
  replace (Z.of_nat (String.length sb + 2) - 2) with (Z.of_nat (String.length sb))
    by lia.
  destruct (Z.ltb_spec (Z.of_nat (String.length sb)) 0); [lia|].
  destruct (Z.ltb_spec (Z.of_nat (String.length sb + 2))
              (Z.of_nat (String.length sb))); [lia|].
  simpl. now rewrite Nat2Z.id, take_append.
Qed.

(** ** The generators, loop by loop *)

Section GeneratorFacts.

Variable caseLower : Z -> Z.

Lemma writeColumn_text (d : string) (sb : Builder.t) (f : Field.t) :
  writeColumn caseLower d sb f = sb ++ (columnEntry caseLower d f ++ SEP).
Proof. reflexivity. Qed.

Lemma writeForeignKey_text (sb : Builder.t) (f : Field.t) :
  writeForeignKey caseLower sb f
  = sb ++ cat (map (fun e => e ++ SEP) (foreignKeyEntries caseLower f)).
Proof.
  unfold writeForeignKey, foreignKeyEntries.
  destruct ((Field.Relation f =? "foreignkey")%string
            || (Field.Relation f =? "one2one")%string); cbn [map cat].
  - unfold Builder.WriteString. f_equal.
    rewrite append_nil_r, !append_assoc. reflexivity.
  - now rewrite append_nil_r.
Qed.

Lemma writeJoinTable_text (m : Model.t) (sb : Builder.t) (f : Field.t) :
  writeJoinTable caseLower m sb f = sb ++ joinTableText caseLower m f.
Proof.
  unfold joinTableText, writeJoinTable.
  destruct (Field.Relation f =? "many2many")%string; [reflexivity|].
  now rewrite append_nil_r.
Qed.

Lemma writeJoinDrop_text (m : Model.t) (sb : Builder.t) (f : Field.t) :
  writeJoinDrop caseLower m sb f = sb ++ joinDropText caseLower m f.
Proof.
  unfold joinDropText, writeJoinDrop.
  destruct (Field.Relation f =? "many2many")%string; [reflexivity|].
  now rewrite append_nil_r.
Qed.

Lemma cat_flat_map_sep (fs : list Field.t) :
  cat (map (fun f => cat (map (fun e => e ++ SEP) (foreignKeyEntries caseLower f))) fs)
  = cat (map (fun e => e ++ SEP) (flat_map (foreignKeyEntries caseLower) fs)).
Proof.
  induction fs as [|f fs IH]; simpl; [reflexivity|].
  now rewrite map_app, cat_app, IH.
Qed.

(** One turn of the loop over the models appends the text of the table
    and of its join tables, and never panics. *)
Lemma writeModel_text (d : string) (sb : Builder.t) (m : Model.t) :
  writeModel caseLower d sb m = Some (sb ++ tableText caseLower d m).
Proof.
  unfold writeModel.
  rewrite (fold_write _ _ (writeColumn_text d)).
  rewrite (fold_write _ _ writeForeignKey_text).
  rewrite cat_flat_map_sep.
  set (hd := "CREATE TABLE " ++ toSnake caseLower (Model.Name m)
               ++ " (" ++ LF).
  assert (Hbody :
    ((Builder.WriteString (Builder.WriteString sb hd)
        ("    id SERIAL PRIMARY KEY," ++ LF)
      ++ cat (map (fun x => columnEntry caseLower d x ++ SEP) (Model.Fields m)))
     ++ cat (map (fun e => e ++ SEP)
               (flat_map (foreignKeyEntries caseLower) (Model.Fields m))))
    = (sb ++ hd ++ String.concat SEP (tableEntries caseLower d m)) ++ SEP).
  { unfold tableEntries, Builder.WriteString.
    change ("    id SERIAL PRIMARY KEY," ++ LF)
      with ("    id SERIAL PRIMARY KEY" ++ SEP).
    rewrite !append_assoc, <- cat_sep_concat.
    cbn [map cat].
    rewrite map_app, cat_app, map_map, !append_assoc.
    reflexivity. }
  rewrite Hbody, Truncate_SEP.
  rewrite (fold_write _ _ (writeJoinTable_text m)).
  unfold Builder.WriteString, tableText. subst hd.
  now rewrite !append_assoc.
Qed.

Lemma range_writeModel (d : string) (ms : list Model.t) (sb : Builder.t) :
  range ms (writeModel caseLower d) sb
  = Some (sb ++ cat (map (tableText caseLower d) ms)).
Proof.
  revert sb. induction ms as [|m ms IH]; intros sb; simpl.
  - now rewrite append_nil_r.
  - now rewrite writeModel_text, IH, append_assoc.
Qed.

(** [generateSQL] returns, and returns the tables in the order of the
    models. *)
Lemma generateSQL_text (ms : list Model.t) (d : string) :
  generateSQL caseLower ms d = Some (cat (map (tableText caseLower d) ms)).
Proof.
  unfold generateSQL. now rewrite range_writeModel.
Qed.

Lemma writeDrops_text (sb : Builder.t) (m : Model.t) :
  writeDrops caseLower sb m = sb ++ dropsText caseLower m.
Proof.
  unfold writeDrops, dropsText.
  rewrite (fold_write _ _ (writeJoinDrop_text m)).
  unfold Builder.WriteString. now rewrite !append_assoc.
Qed.

Lemma generateDownSQL_text (ms : list Model.t) (d : string) :
  generateDownSQL caseLower ms d = cat (map (dropsText caseLower) ms).
Proof.
  unfold generateDownSQL, Builder.String.
  now rewrite (fold_write _ _ writeDrops_text).
Qed.

End GeneratorFacts.

(** ** The schema generator *)

Section SchemaGenerator.

Variable caseLower : Z -> Z.

Lemma generateSQL_app (ms1 ms2 : list Model.t) (d : string) :
  generateSQL caseLower (ms1 ++ ms2) d
  = Some (cat (map (tableText caseLower d) ms1)
          ++ cat (map (tableText caseLower d) ms2)).
Proof.
  now rewrite generateSQL_text, map_app, cat_app.
Qed.

(** C1, as the code has it: for the model [Book] of the README, with a
    text field [title], a foreign key [author] and a many-to-many field
    [tags], [generateSQL] writes a column [author] (not [author_id]) and a
    column [tags] into the table [book], next to the constraint on
    [author_id] and the join table [book_tags]. *)
Theorem generateSQL_Book :
  generateSQL caseLower [Book] "postgres" = Some
"CREATE TABLE book (
    id SERIAL PRIMARY KEY,
    title TEXT NOT NULL,
    author TEXT NOT NULL,
    tags TEXT NOT NULL,
    FOREIGN KEY (author_id) REFERENCES author(id)
);

CREATE TABLE book_tags (
    book_id INTEGER REFERENCES book(id),
    tag_id INTEGER REFERENCES tag(id)
);

".
Proof. vm_compute. reflexivity. Qed.

(** The target types that [sqlType] can return. *)
Lemma sqlType_cases (ftype d : string) :
  sqlType ftype d = "TEXT" \/ sqlType ftype d = "INTEGER" \/
  sqlType ftype d = "REAL" \/ sqlType ftype d = "BOOLEAN" \/
  sqlType ftype d = "TIMESTAMP".
Proof.
  unfold sqlType.
  repeat match goal with
         | |- context [ (?a =? ?b)%string ] => destruct (a =? b)%string
         end; cbn [orb]; tauto.
Qed.

(** Whatever the type tokens of the two relation fields of the README's
    model, each of them gets a column under its own name. *)
Lemma generateSQL_Book_any_type (ta tt : string) :
  generateSQL caseLower
    [Model.mk "Book"
       [ Field.mk "title" "CharField" false false "" "";
         Field.mk "author" ta false false "foreignkey" "Author";
         Field.mk "tags" tt false false "many2many" "Tag" ]] "postgres"
  = Some ("CREATE TABLE book (" ++ LF
          ++ "    id SERIAL PRIMARY KEY," ++ LF
          ++ "    title TEXT NOT NULL," ++ LF
          ++ ("    author " ++ sqlType ta "postgres" ++ " NOT NULL," ++ LF)
          ++ ("    tags " ++ sqlType tt "postgres" ++ " NOT NULL," ++ LF)
          ++ "    FOREIGN KEY (author_id) REFERENCES author(id)" ++ LF
          ++ ");" ++ LF ++ LF
          ++ "CREATE TABLE book_tags (" ++ LF
          ++ "    book_id INTEGER REFERENCES book(id)," ++ LF
          ++ "    tag_id INTEGER REFERENCES tag(id)" ++ LF
          ++ ");" ++ LF ++ LF).
Proof.
  rewrite generateSQL_text.
  unfold tableText, tableEntries, columnEntry.
  cbn [map Model.Fields Field.Type_].
  destruct (sqlType_cases ta "postgres") as [->|[->|[->|[->| ->]]]];
    destruct (sqlType_cases tt "postgres") as [->|[->|[->|[->| ->]]]];
    vm_compute; reflexivity.
Qed.

(** With the builder read as a [bytes.Buffer] (see [Builder]): a model
    without fields yields, wherever it stands in the list of models, a
    closed CREATE TABLE statement whose only column is the primary key
    [id SERIAL PRIMARY KEY], with no separator after it.  Of the source as
    written, whose [Truncate] does not exist, this is not a property. *)
Theorem generateSQL_no_fields (ms1 ms2 : list Model.t) (name d : string) :
  exists pre post : string,
    generateSQL caseLower ms1 d = Some pre /\
    generateSQL caseLower ms2 d = Some post /\
    generateSQL caseLower (ms1 ++ Model.mk name [] :: ms2) d
    = Some (pre
            ++ ("CREATE TABLE " ++ toSnake caseLower name ++ " (" ++ LF
                ++ "    id SERIAL PRIMARY KEY" ++ LF
                ++ ");" ++ LF ++ LF)
            ++ post).
Proof.
  exists (cat (map (tableText caseLower d) ms1)),
         (cat (map (tableText caseLower d) ms2)).
  repeat split; try apply generateSQL_text.
  rewrite generateSQL_app. cbn [map cat].
  unfold tableText, tableEntries. cbn [Model.Fields Model.Name map flat_map cat app].
  cbn [String.concat]. now rewrite append_nil_r, !append_assoc.
Qed.

(** [sqlType] does not look at the dialect, and so neither does the loop
    over the models. *)
Lemma sqlType_dialect (ftype d1 d2 : string) :
  sqlType ftype d1 = sqlType ftype d2.
Proof. reflexivity. Qed.

Lemma writeModel_dialect (d1 d2 : string) :
  writeModel caseLower d1 = writeModel caseLower d2.
Proof. reflexivity. Qed.

(** C8: the dialect has no influence on the generated schema, nor on the
    type mapping; in particular the two supported dialects give the same
    text. *)
Theorem generateSQL_dialect_invariant (ms : list Model.t) (d1 d2 ftype : string) :
  generateSQL caseLower ms d1 = generateSQL caseLower ms d2 /\
  generateSQL caseLower ms "postgres" = generateSQL caseLower ms "mysql" /\
  sqlType ftype d1 = sqlType ftype d2.
Proof.
  split; [|split].
  - unfold generateSQL. now rewrite (writeModel_dialect d1 d2).
  - unfold generateSQL. now rewrite (writeModel_dialect "postgres" "mysql").
  - apply sqlType_dialect.
Qed.

Lemma cat_split_field (g : Field.t -> string) (fs1 fs2 : list Field.t)
    (f : Field.t) :
  cat (map g (fs1 ++ f :: fs2)) = cat (map g fs1) ++ g f ++ cat (map g fs2).
Proof. now rewrite map_app, cat_app. Qed.

(** C10: a many-to-many field whose related model has the snake-case name
    of the owning model yields a join table that declares the column
    [<model>_id] twice. *)
Theorem generateSQL_self_many2many (ms1 ms2 : list Model.t) (m : Model.t)
    (fs1 fs2 : list Field.t) (f : Field.t) (d : string) :
  Model.Fields m = (fs1 ++ f :: fs2)%list ->
  Field.Relation f = "many2many" ->
  toSnake caseLower (Field.RelatedTo f) = toSnake caseLower (Model.Name m) ->
  exists pre post : string,
    generateSQL caseLower (ms1 ++ m :: ms2) d
    = Some (pre
            ++ ("CREATE TABLE " ++ toSnake caseLower (Model.Name m) ++ "_"
                ++ toSnake caseLower (Field.Name f) ++ " (" ++ LF
                ++ "    " ++ toSnake caseLower (Model.Name m)
                ++ "_id INTEGER REFERENCES "
                ++ toSnake caseLower (Model.Name m) ++ "(id)," ++ LF
                ++ "    " ++ toSnake caseLower (Model.Name m)
                ++ "_id INTEGER REFERENCES "
                ++ toSnake caseLower (Model.Name m) ++ "(id)" ++ LF
                ++ ");" ++ LF ++ LF)
            ++ post).
Proof.
  intros Hfs Hrel Hself.
  assert (HJ : joinTableText caseLower m f
               = "CREATE TABLE " ++ toSnake caseLower (Model.Name m) ++ "_"
                 ++ toSnake caseLower (Field.Name f) ++ " (" ++ LF
                 ++ "    " ++ toSnake caseLower (Model.Name m)
                 ++ "_id INTEGER REFERENCES "
                 ++ toSnake caseLower (Model.Name m) ++ "(id)," ++ LF
                 ++ "    " ++ toSnake caseLower (Model.Name m)
                 ++ "_id INTEGER REFERENCES "
                 ++ toSnake caseLower (Model.Name m) ++ "(id)" ++ LF
                 ++ ");" ++ LF ++ LF).
  { unfold joinTableText, writeJoinTable. rewrite Hrel, Hself.
    change (("many2many" =? "many2many")%string) with true. cbv iota.
    unfold Builder.WriteString, Builder.empty.
    rewrite !append_assoc. reflexivity. }
  rewrite generateSQL_app. cbn [map cat].
  unfold tableText at 2. rewrite Hfs, cat_split_field, HJ.
  exists (cat (map (tableText caseLower d) ms1)
          ++ "CREATE TABLE " ++ toSnake caseLower (Model.Name m) ++ " (" ++ LF
          ++ String.concat SEP (tableEntries caseLower d m)
          ++ LF ++ ");" ++ LF ++ LF
          ++ cat (map (joinTableText caseLower m) fs1)),
         (cat (map (joinTableText caseLower m) fs2)
          ++ cat (map (tableText caseLower d) ms2)).
  now rewrite !append_assoc.
Qed.

End SchemaGenerator.

(** ** The migration generator *)

Section MigrationGenerator.

Variable caseLower : Z -> Z.

Lemma fold_joinDrop (m : Model.t) (fs : list Field.t) :
  fold_left (writeJoinDrop caseLower m) fs Builder.empty
  = cat (map (joinDropText caseLower m) fs).
Proof.
  now rewrite (fold_write _ _ (writeJoinDrop_text caseLower m)).
Qed.

(** C6: the down migration of a list of models is the down migration of
    the models before [m], the drops of the join tables of [m] with the
    one of the many-to-many field [f] among them, then the drop of the
    table of [m] itself, then the down migration of the models after [m]:
    the join table of [f] is dropped strictly before the table of its
    owner. *)
Theorem generateDownSQL_join_before_owner (ms1 ms2 : list Model.t)
    (m : Model.t) (fs1 fs2 : list Field.t) (f : Field.t) (d : string) :
  Model.Fields m = (fs1 ++ f :: fs2)%list ->
  Field.Relation f = "many2many" ->
  generateDownSQL caseLower (ms1 ++ m :: ms2) d
  = generateDownSQL caseLower ms1 d
    ++ fold_left (writeJoinDrop caseLower m) fs1 Builder.empty
    ++ ("DROP TABLE IF EXISTS " ++ toSnake caseLower (Model.Name m) ++ "_"
        ++ toSnake caseLower (Field.Name f) ++ ";" ++ LF)
    ++ fold_left (writeJoinDrop caseLower m) fs2 Builder.empty
    ++ ("DROP TABLE IF EXISTS " ++ toSnake caseLower (Model.Name m)
        ++ ";" ++ LF)
    ++ generateDownSQL caseLower ms2 d.
Proof.
  intros Hfs Hrel.
  assert (HJ : joinDropText caseLower m f
               = "DROP TABLE IF EXISTS " ++ toSnake caseLower (Model.Name m)
                 ++ "_" ++ toSnake caseLower (Field.Name f) ++ ";" ++ LF).
  { unfold joinDropText, writeJoinDrop. rewrite Hrel. reflexivity. }
  rewrite !generateDownSQL_text, !fold_joinDrop, map_app, cat_app.
  cbn [map cat]. unfold dropsText at 2.
  rewrite Hfs, cat_split_field, HJ.
  now rewrite !append_assoc.
Qed.

End MigrationGenerator.

(** ** The run *)

Section Run.

Variable caseLower : Z -> Z.
Variable filepath_Join : string -> string -> string.

(** A run that gets its models writes five files, reading the clock once
    for the name of the up migration and once more for the name of the
    down migration. *)
Lemma main_normal_run (flags : Flags) (w : World) (out : Output.t) :
  input flags <> "" ->
  runPythonParser (input flags) w = Some out ->
  dryRun flags = false ->
  main caseLower filepath_Join flags w
  = (Returned,
     mkWorld (clock w) (S (S (readings w))) (walk w)
       (written w ++
        [ (filepath_Join (output flags) "schema.sql",
           cat (map (tableText caseLower (dialect flags)) (Output.Models out)));
          (filepath_Join (filepath_Join (output flags) "migrations")
             (time.Format_20060102150405 (clock w (readings w))
              ++ "_create_tables.up.sql"),
           cat (map (tableText caseLower (dialect flags)) (Output.Models out)));
          (filepath_Join (filepath_Join (output flags) "migrations")
             (time.Format_20060102150405 (clock w (S (readings w)))
              ++ "_create_tables.down.sql"),
           generateDownSQL caseLower (Output.Models out) (dialect flags));
          (filepath_Join (output flags) "query.sql",
           strings.Join (Output.Queries out) (LF ++ LF));
          (filepath_Join (output flags) "sqlc.yaml",
           generateSQLCConfig (dialect flags)) ])%list).
Proof.
  intros Hin Hparse Hdry. unfold main.
  apply String.eqb_neq in Hin. rewrite Hin, Hparse, Hdry.
  rewrite generateSQL_text.
  unfold timestamp, time_Now, write. cbn [clock readings walk written].
  now rewrite <- !app_assoc.
Qed.

(** C7: in a run that writes its artifacts, the up migration, the second
    file written, has the text that [generateSQL] returns for the models
    and the dialect of the run. *)
Theorem up_migration_is_schema (flags : Flags) (w : World) (out : Output.t) :
  input flags <> "" ->
  runPythonParser (input flags) w = Some out ->
  dryRun flags = false ->
  exists sql : string,
    generateSQL caseLower (Output.Models out) (dialect flags) = Some sql /\
    nth_error (written (snd (main caseLower filepath_Join flags w)))
      (List.length (written w) + 1)
    = Some (filepath_Join (filepath_Join (output flags) "migrations")
              (time.Format_20060102150405 (clock w (readings w))
               ++ "_create_tables.up.sql"),
            sql).
Proof.
  intros Hin Hparse Hdry.
  exists (cat (map (tableText caseLower (dialect flags)) (Output.Models out))).
  split; [apply generateSQL_text|].
  rewrite (main_normal_run flags w out Hin Hparse Hdry).
  cbn [snd written].
  rewrite nth_error_app2 by lia.
  replace (List.length (written w) + 1 - List.length (written w))%nat
    with 1%nat by lia.
  reflexivity.
Qed.

(** C4, as the code has it: when the clock passes a second boundary
    between the two calls of [timestamp], the up and the down migration
    are written under different timestamps. *)
Theorem main_two_timestamps :
  map fst (written (snd (main caseLower filepath_Join example_flags
                           (world_of [models_py]))))
  = [ filepath_Join "out" "schema.sql";
      filepath_Join (filepath_Join "out" "migrations")
        "20250410131459_create_tables.up.sql";
      filepath_Join (filepath_Join "out" "migrations")
        "20250410131500_create_tables.down.sql";
      filepath_Join "out" "query.sql";
      filepath_Join "out" "sqlc.yaml" ].
Proof. vm_compute. reflexivity. Qed.

End Run.

(** ** The extractor *)

Section Extractor.

(** A loop stops at the first turn that raises. *)
Lemma for_raises {A S : Type} (body : S -> A -> Py.outcome S) (x : A) :
  (forall s, exists e, body s x = Py.Raise e) ->
  forall xs s, In x xs -> exists e, Py.for_ xs body s = Py.Raise e.
Proof.
  intros Hx xs. induction xs as [|y xs IH]; intros s Hin; [easy|].
  cbn [Py.for_]. destruct (body s y) as [s'|e] eqn:Hy; cbn [Py.bind].
  - destruct Hin as [->|Hin]; [|now apply IH].
    destruct (Hx s) as [e He]. congruence.
  - now exists e.
Qed.

Lemma scan_file_unparsable (f : Py.SourceFile) :
  Py.endswith (Py.file f) ".py" = true ->
  Py.parsed f = None ->
  forall acc, exists e, Py.scan_file acc f = Py.Raise e.
Proof.
  intros Hpy Hparse acc. unfold Py.scan_file. rewrite Hpy, Hparse.
  destruct (Py.code f); eauto.
Qed.

(** A statement of a class body that is not an assignment of a call is
    passed over. *)
Lemma class_stmt_skips (fields : list Py.field) (stmt : ast.stmt) :
  (forall targets func args keywords,
      stmt <> ast.Assign targets (ast.Call func args keywords)) ->
  Py.class_stmt fields stmt = Py.Ok fields.
Proof.
  intros H. destruct stmt as [targets value|name bases body|]; try reflexivity.
  destruct value; try reflexivity.
  now elim (H targets value args keywords).
Qed.

(** C3, as the code has it: an assignment to a tuple of names and a
    relation constructor called without argument are not passed over;
    they raise, the extraction of the file raises with them, and the run
    ends with status 1 and nothing written. *)
Theorem class_stmt_raises :
  Py.class_stmt [] tuple_target = Py.Raise Py.AttributeError /\
  Py.class_stmt [] no_argument = Py.Raise Py.IndexError /\
  Py.extract_models [models_py; tuple_py] = Py.Raise Py.AttributeError /\
  Py.extract_models [models_py; noarg_py] = Py.Raise Py.IndexError /\
  main (fun r => r) join_slash example_flags (world_of [models_py; tuple_py])
  = (Exited 1, world_of [models_py; tuple_py]).
Proof. repeat split. Qed.

(** C2, as stated, fails: with one file that parses and one that does
    not, the extraction raises for the run as a whole, the model of the
    file that parses is lost, and the run writes nothing, although the
    file that parses alone gives a model and five artifacts. *)
Lemma broken_file_aborts_run :
  Py.parsed broken_py = None /\
  Py.extract_models [models_py; broken_py] = Py.Raise Py.SyntaxError /\
  runPythonParser "app" (world_of [models_py; broken_py]) = None /\
  main (fun r => r) join_slash example_flags (world_of [models_py; broken_py])
  = (Exited 1, world_of [models_py; broken_py]) /\
  written (world_of [models_py; broken_py]) = [] /\
  runPythonParser "app" (world_of [models_py])
  = Some (Output.mk
            [Model.mk "Book" [Field.mk "title" "CharField" false false "" ""]]
            []) /\
  List.length
    (written (snd (main (fun r => r) join_slash example_flags
                     (world_of [models_py])))) = 5%nat.
Proof. repeat split. Qed.

Variable caseLower : Z -> Z.
Variable filepath_Join : string -> string -> string.

(** C2, amended: when a [.py] file under the input path does not parse,
    the extraction raises as a whole, no model of any file reaches the
    generators, and the run exits with status 1 without writing. *)
Theorem unparsable_file_aborts_run (flags : Flags) (w : World)
    (f : Py.SourceFile) :
  In f (walk w (input flags)) ->
  Py.endswith (Py.file f) ".py" = true ->
  Py.parsed f = None ->
  (exists e, Py.extract_models (walk w (input flags)) = Py.Raise e) /\
  runPythonParser (input flags) w = None /\
  main caseLower filepath_Join flags w = (Exited 1, w).
Proof.
  intros Hin Hpy Hparse.
  destruct (for_raises Py.scan_file f (scan_file_unparsable f Hpy Hparse)
              (walk w (input flags)) ([], []) Hin) as [e He].
  assert (Hrun : runPythonParser (input flags) w = None).
  { unfold runPythonParser, Py.extract_models. now rewrite He. }
  split; [now exists e|]. split; [exact Hrun|].
  unfold main. rewrite Hrun. now destruct (input flags =? "")%string.
Qed.

End Extractor.

(** ** UTF-8 *)

Section Utf8Facts.

Lemma bval_range (c : ascii) : 0 <= bval c < 256.
Proof.
  unfold bval. pose proof (N_ascii_bounded c). lia.
Qed.

Lemma bval_chr (z : Z) : 0 <= z < 256 -> bval (chr z) = z.
Proof.
  intros Hz. unfold bval, chr. rewrite N_ascii_embedding by lia. lia.
Qed.

Lemma chr_bval (c : ascii) : chr (bval c) = c.
Proof.
  unfold bval, chr. now rewrite N2Z.id, ascii_N_embedding.
Qed.

Lemma bval_inj (a b : ascii) : bval a = bval b -> a = b.
Proof.
  intros H. rewrite <- (chr_bval a), <- (chr_bval b). now rewrite H.
Qed.

Lemma ValidRune_valid (r : Z) : utf8.ValidRune r = true <-> valid r.
Proof.
  unfold utf8.ValidRune, utf8.surrogate, utf8.MaxRune, valid.
  rewrite !andb_true_iff, negb_true_iff, andb_false_iff.
  rewrite !Z.leb_le, !Z.leb_gt. lia.
Qed.

End Utf8Facts.

(** Case analysis on the comparisons of a goal, the impossible cases
    closed by arithmetic. *)
Ltac zprune := try (exfalso; Z.div_mod_to_equations; lia).

Ltac zcases :=
  repeat match goal with
  | |- context [ ?a =? ?b ] => destruct (Z.eqb_spec a b); zprune
  | |- context [ ?a <? ?b ] => destruct (Z.ltb_spec a b); zprune
  | |- context [ ?a <=? ?b ] => destruct (Z.leb_spec a b); zprune
  end.

Lemma decode1 (r : Z) (t : string) :
  0 <= r < 0x80 -> utf8.DecodeRuneInString (String (chr r) t) = (r, 1%nat).
Proof.
  intros Hr. unfold utf8.DecodeRuneInString, utf8.RuneSelf. cbv zeta.
  rewrite bval_chr by lia. zcases. reflexivity.
Qed.

Lemma decode2 (r : Z) (t : string) :
  0x80 <= r < 0x800 ->
  utf8.DecodeRuneInString
    (String (chr (0xC0 + r / 64)) (String (chr (0x80 + r mod 64)) t))
  = (r, 2%nat).
Proof.
  intros Hr. unfold utf8.DecodeRuneInString, utf8.RuneSelf, utf8.cont. cbv zeta.
  rewrite !bval_chr by (Z.div_mod_to_equations; lia).
  zcases. cbn [andb]. f_equal. Z.div_mod_to_equations; lia.
Qed.

Lemma decode3 (r : Z) (t : string) :
  0x800 <= r < 0x10000 -> ~ (0xD800 <= r <= 0xDFFF) ->
  utf8.DecodeRuneInString (utf8.encode3 r ++ t) = (r, 3%nat).
Proof.
  intros Hr Hs. unfold utf8.encode3. cbn [append].
  unfold utf8.DecodeRuneInString, utf8.RuneSelf, utf8.cont, utf8.second,
    utf8.accept_lo, utf8.accept_hi. cbv zeta.
  rewrite !bval_chr by (Z.div_mod_to_equations; lia).
  zcases; cbn [andb]; f_equal; Z.div_mod_to_equations; lia.
Qed.

Lemma decode4 (r : Z) (t : string) :
  0x10000 <= r <= 0x10FFFF ->
  utf8.DecodeRuneInString
    (String (chr (0xF0 + r / 262144))
       (String (chr (0x80 + (r / 4096) mod 64))
          (String (chr (0x80 + (r / 64) mod 64))
             (String (chr (0x80 + r mod 64)) t))))
  = (r, 4%nat).
Proof.
  intros Hr.
  unfold utf8.DecodeRuneInString, utf8.RuneSelf, utf8.cont, utf8.second,
    utf8.accept_lo, utf8.accept_hi. cbv zeta.
  rewrite !bval_chr by (Z.div_mod_to_equations; lia).
  zcases; cbn [andb]; f_equal; Z.div_mod_to_equations; lia.
Qed.

Lemma decode_encode (r : Z) (t : string) :
  valid r ->
  utf8.DecodeRuneInString (utf8.EncodeRune r ++ t)
  = (r, String.length (utf8.EncodeRune r)) /\
  (1 <= String.length (utf8.EncodeRune r))%nat.
Proof.
  intros [Hr Hs]. unfold utf8.EncodeRune.
  assert (Hv : utf8.ValidRune r = true) by (apply ValidRune_valid; split; assumption).
  rewrite Hv. cbn [negb].
  destruct (Z.leb_spec 0 r); [|lia]. cbn [andb].
  destruct (Z.ltb_spec r 0x80).
  { cbn [append String.length]. split; [apply decode1|]; lia. }
  destruct (Z.ltb_spec r 0x800).
  { cbn [append String.length]. split; [apply decode2|]; lia. }
  destruct (Z.ltb_spec r 0x10000).
  { split; [apply decode3; lia|]. cbn. lia. }
  cbn [append String.length]. split; [apply decode4|]; lia.
Qed.

Lemma decode_valid (c0 : ascii) (s1 : string) (c : Z) (w : nat) :
  utf8.DecodeRuneInString (String c0 s1) = (c, w) ->
  valid c /\ (1 <= w)%nat /\ (c < 0x80 -> c = bval c0).
Proof.
  unfold utf8.DecodeRuneInString, utf8.RuneSelf, utf8.cont, utf8.second,
    utf8.accept_lo, utf8.accept_hi, utf8.RuneError, valid. cbv zeta.
  pose proof (bval_range c0).
  destruct s1 as [|c1 [|c2 [|c3 s4]]];
    try pose proof (bval_range c1); try pose proof (bval_range c2);
    try pose proof (bval_range c3);
    zcases; cbn [andb]; intros E; injection E as <- <-; lia.
Qed.

Lemma all_bytes_append (p : ascii -> bool) (a b : string) :
  all_bytes p (a ++ b) = all_bytes p a && all_bytes p b.
Proof.
  induction a as [|c a IH]; simpl; [reflexivity|].
  now rewrite IH, andb_assoc.
Qed.

Lemma map_bytes_append (f : ascii -> ascii) (a b : string) :
  map_bytes f (a ++ b) = map_bytes f a ++ map_bytes f b.
Proof.
  induction a as [|c a IH]; simpl; [reflexivity|now rewrite IH].
Qed.

Lemma map_bytes_id (f : ascii -> ascii) (p : ascii -> bool) (s : string) :
  (forall c, p c = true -> f c = c) -> all_bytes p s = true -> map_bytes f s = s.
Proof.
  intros Hf. induction s as [|c s IH]; simpl; [reflexivity|].
  rewrite andb_true_iff. intros [Hc Hs]. now rewrite Hf, IH.
Qed.

Lemma all_bytes_map (f : ascii -> ascii) (p q : ascii -> bool) (s : string) :
  (forall c, p c = true -> q (f c) = true) ->
  all_bytes p s = true -> all_bytes q (map_bytes f s) = true.
Proof.
  intros Hf. induction s as [|c s IH]; simpl; [reflexivity|].
  rewrite !andb_true_iff. intros [Hc Hs]. split; [now apply Hf|now apply IH].
Qed.

Section Runes.

Variable mapping : Z -> Z.

Lemma Map_from_runes (s : string) (k : nat) :
  strings.Map_from mapping k s
  = cat (map (fun c => if 0 <=? mapping c
                       then utf8.EncodeRune (mapping c) else "")
           (strings.runes_from k s)).
Proof.
  revert k. induction s as [|a s IH]; intros k; [reflexivity|].
  cbn [strings.Map_from strings.runes_from]. destruct k as [|k]; [|apply IH].
  destruct (utf8.DecodeRuneInString (String a s)) as [c w].
  cbn [map cat]. now rewrite IH.
Qed.

Lemma runes_from_skip (u t : string) :
  strings.runes_from (String.length u) (u ++ t) = strings.runes_from 0 t.
Proof.
  induction u as [|a u IH]; [reflexivity|]. exact IH.
Qed.

Lemma runes_encoded (rs : list Z) :
  Forall valid rs -> strings.runes (cat (map utf8.EncodeRune rs)) = rs.
Proof.
  unfold strings.runes. induction 1 as [|r rs Hr Hrs IH]; [reflexivity|].
  cbn [map cat].
  destruct (decode_encode r (cat (map utf8.EncodeRune rs)) Hr) as [Hd Hl].
  destruct (utf8.EncodeRune r) as [|c0 u] eqn:E; [cbn in Hl; lia|].
  cbn [append] in *. cbn [strings.runes_from]. rewrite Hd.
  cbn [String.length]. rewrite Nat.sub_1_r. cbn [Nat.pred].
  now rewrite runes_from_skip, IH.
Qed.

Lemma runes_valid (s : string) (k : nat) :
  Forall valid (strings.runes_from k s).
Proof.
  revert k. induction s as [|a s IH]; intros k; [constructor|].
  cbn [strings.runes_from]. destruct k as [|k]; [|apply IH].
  destruct (utf8.DecodeRuneInString (String a s)) as [c w] eqn:E.
  constructor; [|apply IH]. now apply decode_valid in E.
Qed.

Lemma bval_space : bval " " = 32.
Proof. reflexivity. Qed.

Lemma nospace_bval (c : ascii) : nospace c = true <-> bval c <> 32.
Proof.
  unfold nospace. rewrite negb_true_iff. split.
  - intros H E. apply Ascii.eqb_neq in H. apply H, bval_inj. now rewrite E.
  - intros H. apply Ascii.eqb_neq. intros ->. now apply H.
Qed.

Lemma runes_nospace (s : string) (k : nat) :
  all_bytes nospace s = true ->
  Forall (fun c => c <> 32) (strings.runes_from k s).
Proof.
  revert k. induction s as [|a s IH]; intros k; [constructor|].
  cbn [all_bytes]. rewrite andb_true_iff. intros [Ha Hs].
  cbn [strings.runes_from]. destruct k as [|k]; [|now apply IH].
  destruct (utf8.DecodeRuneInString (String a s)) as [c w] eqn:E.
  constructor; [|now apply IH].
  apply decode_valid in E. destruct E as (_ & _ & Hc).
  apply nospace_bval in Ha. intros ->. apply Ha. symmetry. apply Hc. lia.
Qed.

End Runes.

(** ** The snake-case transform *)

Section ToLower.

Variable caseLower : Z -> Z.
Hypothesis table : LowerTable caseLower.

Let L := unicode.ToLower caseLower.

Lemma L_ascii (c : Z) :
  c <= 0x7F -> L c = if (65 <=? c) && (c <=? 90) then c + 32 else c.
Proof.
  intros Hc. unfold L, unicode.ToLower, unicode.MaxASCII.
  destruct (Z.leb_spec c 0x7F); [reflexivity|lia].
Qed.

Lemma L_above (c : Z) : 0x7F < c -> L c = caseLower c.
Proof.
  intros Hc. unfold L, unicode.ToLower, unicode.MaxASCII.
  destruct (Z.leb_spec c 0x7F); [lia|reflexivity].
Qed.

Lemma L_valid (c : Z) : valid c -> valid (L c).
Proof.
  intros Hc. destruct (Z.le_gt_cases c 0x7F) as [Ha|Ha].
  - rewrite L_ascii by assumption. unfold valid in *. zcases; cbn [andb]; lia.
  - rewrite L_above by lia. apply ValidRune_valid.
    apply (lower_valid _ table); [now apply ValidRune_valid|].
    unfold unicode.MaxASCII. lia.
Qed.

Lemma L_stable (c : Z) : valid c -> L (L c) = L c.
Proof.
  intros Hc. destruct (Z.le_gt_cases c 0x7F) as [Ha|Ha].
  - rewrite (L_ascii c) by assumption.
    zcases; cbn [andb]; rewrite L_ascii by lia; zcases; reflexivity.
  - rewrite (L_above c) by lia.
    apply (lower_stable _ table); [now apply ValidRune_valid|].
    unfold unicode.MaxASCII. lia.
Qed.

Lemma L_nospace (c : Z) : valid c -> c <> 32 -> L c <> 32.
Proof.
  intros Hc Hn. destruct (Z.le_gt_cases c 0x7F) as [Ha|Ha].
  - rewrite L_ascii by assumption. zcases; cbn [andb]; lia.
  - rewrite L_above by lia.
    apply (lower_no_space _ table); [now apply ValidRune_valid|].
    unfold unicode.MaxASCII. lia.
Qed.

(** [strings.Map] of [unicode.ToLower], rune by rune. *)
Lemma Map_ToLower_runes (s : string) :
  strings.Map L s = cat (map utf8.EncodeRune (map L (strings.runes s))).
Proof.
  unfold strings.Map, strings.runes. rewrite Map_from_runes, map_map.
  pose proof (runes_valid s 0) as Hv.
  induction Hv as [|c rs Hc Hrs IH]; [reflexivity|].
  cbn [map cat]. rewrite IH. f_equal.
  destruct (L_valid c Hc) as [[H0 _] _].
  destruct (Z.leb_spec 0 (L c)); [reflexivity|lia].
Qed.

Lemma lowerByte_fixed (r : Z) :
  0 <= r < 0x80 -> L r = r -> strings.lowerByte (chr r) = chr r.
Proof.
  intros Hr HL. unfold strings.lowerByte. rewrite bval_chr by lia.
  rewrite L_ascii in HL by lia. revert HL. zcases; cbn [andb]; intros; try reflexivity; lia.
Qed.

Lemma encoded_ascii (r : Z) :
  valid r -> all_bytes strings.isASCII (utf8.EncodeRune r) = true ->
  0 <= r < 0x80 /\ utf8.EncodeRune r = String (chr r) "".
Proof.
  intros [Hr Hs]. unfold utf8.EncodeRune.
  assert (Hv : utf8.ValidRune r = true) by (apply ValidRune_valid; split; assumption).
  rewrite Hv. cbn [negb].
  destruct (Z.leb_spec 0 r); [|lia]. cbn [andb].
  destruct (Z.ltb_spec r 0x80); [intros _; split; [lia|reflexivity]|].
  unfold utf8.encode3, strings.isASCII, utf8.RuneSelf.
  destruct (Z.ltb_spec r 0x800); [|destruct (Z.ltb_spec r 0x10000)];
    cbn [all_bytes]; rewrite !bval_chr by (Z.div_mod_to_equations; lia);
    zcases; cbn [andb]; discriminate.
Qed.

(** A string of encoded runes that the mapping leaves alone is left alone
    by [strings.ToLower]. *)
Lemma ToLower_fixed (rs : list Z) :
  Forall valid rs -> Forall (fun r => L r = r) rs ->
  strings.ToLower caseLower (cat (map utf8.EncodeRune rs))
  = cat (map utf8.EncodeRune rs).
Proof.
  intros Hv Hf. unfold strings.ToLower.
  destruct (all_bytes strings.isASCII (cat (map utf8.EncodeRune rs))) eqn:Ha.
  - revert Hf Ha. induction Hv as [|r rs Hr Hrs IH]; [reflexivity|].
    intros Hf Ha. inversion Hf as [|? ? Hfr Hfrs]; subst.
    cbn [map cat] in *. rewrite all_bytes_append, andb_true_iff in Ha.
    destruct Ha as [Ha1 Ha2].
    destruct (encoded_ascii r Hr Ha1) as [Hr7 E].
    rewrite map_bytes_append, IH by assumption. rewrite E.
    cbn [map_bytes]. now rewrite lowerByte_fixed.
  - fold L. rewrite Map_ToLower_runes, runes_encoded by assumption.
    f_equal. clear Ha Hv. induction Hf as [|r rs Hr Hrs IH]; [reflexivity|].
    cbn [map]. now rewrite Hr, IH.
Qed.

Lemma lowerByte_ascii (c : ascii) :
  strings.isASCII c = true -> strings.isASCII (strings.lowerByte c) = true.
Proof.
  unfold strings.isASCII, strings.lowerByte, utf8.RuneSelf.
  pose proof (bval_range c).
  destruct ((65 <=? bval c) && (bval c <=? 90)) eqn:E; [|easy].
  rewrite andb_true_iff, !Z.leb_le in E. intros _.
  rewrite bval_chr by lia. apply Z.ltb_lt. lia.
Qed.

Lemma lowerByte_idem (c : ascii) :
  strings.lowerByte (strings.lowerByte c) = strings.lowerByte c.
Proof.
  unfold strings.lowerByte. cbv zeta. pose proof (bval_range c).
  destruct ((65 <=? bval c) && (bval c <=? 90)) eqn:E.
  - rewrite andb_true_iff, !Z.leb_le in E.
    rewrite bval_chr by lia. zcases; reflexivity.
  - now rewrite E.
Qed.

Lemma lowerByte_nospace (c : ascii) :
  nospace c = true -> nospace (strings.lowerByte c) = true.
Proof.
  rewrite !nospace_bval. unfold strings.lowerByte. pose proof (bval_range c).
  destruct ((65 <=? bval c) && (bval c <=? 90)) eqn:E; [|easy].
  rewrite andb_true_iff, !Z.leb_le in E. intros _.
  rewrite bval_chr by lia. lia.
Qed.

Lemma ToLower_ascii (s : string) :
  all_bytes strings.isASCII s = true ->
  strings.ToLower caseLower s = map_bytes strings.lowerByte s.
Proof. intros Ha. unfold strings.ToLower. now rewrite Ha. Qed.

Lemma ToLower_runes (s : string) :
  all_bytes strings.isASCII s = false ->
  strings.ToLower caseLower s
  = cat (map utf8.EncodeRune (map L (strings.runes s))).
Proof.
  intros Ha. unfold strings.ToLower. rewrite Ha. apply Map_ToLower_runes.
Qed.

Lemma map_lowerByte_idem (s : string) :
  map_bytes strings.lowerByte (map_bytes strings.lowerByte s)
  = map_bytes strings.lowerByte s.
Proof.
  induction s as [|c s IH]; [reflexivity|].
  cbn [map_bytes]. now rewrite lowerByte_idem, IH.
Qed.

Lemma ToLower_idempotent (s : string) :
  strings.ToLower caseLower (strings.ToLower caseLower s)
  = strings.ToLower caseLower s.
Proof.
  destruct (all_bytes strings.isASCII s) eqn:Ha.
  - rewrite (ToLower_ascii s Ha).
    rewrite ToLower_ascii
      by (now apply (all_bytes_map _ _ _ s lowerByte_ascii)).
    apply map_lowerByte_idem.
  - rewrite (ToLower_runes s Ha).
    pose proof (runes_valid s 0) as Hv. fold (strings.runes s) in Hv.
    apply ToLower_fixed.
    + induction Hv; constructor; [now apply L_valid|assumption].
    + induction Hv; constructor; [now apply L_stable|assumption].
Qed.

Lemma encoded_nospace (r : Z) :
  valid r -> r <> 32 -> all_bytes nospace (utf8.EncodeRune r) = true.
Proof.
  intros [Hr Hs] Hn. unfold utf8.EncodeRune.
  assert (Hv : utf8.ValidRune r = true) by (apply ValidRune_valid; split; assumption).
  rewrite Hv. cbn [negb]. unfold utf8.encode3.
  destruct (Z.leb_spec 0 r); [|lia]. cbn [andb].
  destruct (Z.ltb_spec r 0x80); [|destruct (Z.ltb_spec r 0x800);
    [|destruct (Z.ltb_spec r 0x10000)]];
    cbn [all_bytes]; rewrite ?andb_true_iff; repeat split;
    apply nospace_bval; rewrite bval_chr by (Z.div_mod_to_equations; lia);
    Z.div_mod_to_equations; lia.
Qed.

Lemma ToLower_nospace (s : string) :
  all_bytes nospace s = true ->
  all_bytes nospace (strings.ToLower caseLower s) = true.
Proof.
  intros Hs. destruct (all_bytes strings.isASCII s) eqn:Ha.
  - rewrite (ToLower_ascii s Ha).
    now apply (all_bytes_map _ _ _ s lowerByte_nospace).
  - rewrite (ToLower_runes s Ha).
    pose proof (runes_valid s 0) as Hv.
    pose proof (runes_nospace s 0 Hs) as Hn.
    fold (strings.runes s) in Hv, Hn.
    induction Hv as [|r rs Hr Hrs IH]; [reflexivity|].
    inversion Hn; subst. cbn [map cat]. rewrite all_bytes_append, IH by assumption.
    rewrite encoded_nospace; [reflexivity|now apply L_valid|now apply L_nospace].
Qed.

End ToLower.

Lemma ReplaceAll_space (s : string) :
  strings.ReplaceAll s " " "_"
  = map_bytes (fun c => if Ascii.eqb c " " then "_"%char else c) s.
Proof.
  unfold strings.ReplaceAll. induction s as [|c s IH]; [reflexivity|].
  cbn [strings.replace_from strings.HasPrefix map_bytes String.length Nat.sub].
  rewrite Ascii.eqb_sym. destruct (Ascii.eqb c " "); cbn [andb].
  - destruct s; cbn [strings.HasPrefix append]; now rewrite IH.
  - now rewrite IH.
Qed.

Lemma ReplaceAll_nospace (s : string) :
  all_bytes nospace (strings.ReplaceAll s " " "_") = true.
Proof.
  rewrite ReplaceAll_space. induction s as [|c s IH]; [reflexivity|].
  cbn [map_bytes all_bytes]. rewrite IH, andb_true_r. unfold nospace.
  destruct (Ascii.eqb c " ") eqn:E; [reflexivity|now rewrite E].
Qed.

Lemma ReplaceAll_fixed (s : string) :
  all_bytes nospace s = true -> strings.ReplaceAll s " " "_" = s.
Proof.
  rewrite ReplaceAll_space. apply map_bytes_id.
  intros c. unfold nospace. now destruct (Ascii.eqb c " ").
Qed.

(** C9: [toSnake] is a function of its argument (and of the case tables of
    the runtime), and applying it twice gives what applying it once gives,
    for every string, well-formed UTF-8 or not. *)
Theorem toSnake_idempotent (caseLower : Z -> Z) (x : string) :
  LowerTable caseLower ->
  toSnake caseLower (toSnake caseLower x) = toSnake caseLower x.
Proof.
  intros table. unfold toSnake.
  rewrite (ReplaceAll_fixed (strings.ToLower caseLower _)).
  - now apply ToLower_idempotent.
  - apply ToLower_nospace; [assumption|apply ReplaceAll_nospace].
Qed.

Lemma latin1Lower_cases (r : Z) :
  (0xC0 <= r <= 0xDE /\ r <> 0xD7 /\ latin1Lower r = r + 32) \/
  (r = 0x212A /\ latin1Lower r = 0x6B) \/
  (~ (0xC0 <= r <= 0xDE /\ r <> 0xD7) /\ r <> 0x212A /\ latin1Lower r = r).
Proof.
  unfold latin1Lower. zcases; cbn [andb negb]; lia.
Qed.

(** The part of the Unicode table given by [latin1Lower] is such a table. *)
Lemma latin1Lower_table : LowerTable latin1Lower.
Proof.
  split; intros r Hr Ha; apply ValidRune_valid in Hr;
    unfold unicode.MaxASCII in Ha; unfold valid in Hr;
    destruct (latin1Lower_cases r) as [(H1 & H2 & ->)|[(H1 & ->)|(H1 & H2 & ->)]].
  - apply ValidRune_valid. unfold valid. lia.
  - reflexivity.
  - apply ValidRune_valid. unfold valid. lia.
  - unfold unicode.ToLower, unicode.MaxASCII.
    destruct (Z.leb_spec (r + 32) 127); [lia|].
    destruct (latin1Lower_cases (r + 32)) as [?|[?|?]]; lia.
  - reflexivity.
  - unfold unicode.ToLower, unicode.MaxASCII.
    destruct (Z.leb_spec r 127); [lia|].
    destruct (latin1Lower_cases r) as [?|[?|?]]; lia.
  - lia.
  - lia.
  - lia.
Qed.

Example toSnake_uber :
  toSnake latin1Lower uber_name = "my_" ++ bytes [0xC3; 0xBC] ++ "ber_model".
Proof. vm_compute. reflexivity. Qed.

(** ** Instances *)

Lemma toSnake_idempotent_witness :
  LowerTable latin1Lower /\
  toSnake latin1Lower (toSnake latin1Lower uber_name)
  = toSnake latin1Lower uber_name.
Proof.
  split; [exact latin1Lower_table|].
  apply (toSnake_idempotent latin1Lower uber_name latin1Lower_table).
Defined.

Lemma generateSQL_self_many2many_witness :
  Model.Fields Person
  = ([] ++ Field.mk "friends" "ManyToManyField" false false "many2many" "Person"
        :: [])%list /\
  exists pre post : string,
    generateSQL (fun r => r) [Person] "postgres"
    = Some (pre
            ++ ("CREATE TABLE person_friends (" ++ LF
                ++ "    person_id INTEGER REFERENCES person(id)," ++ LF
                ++ "    person_id INTEGER REFERENCES person(id)" ++ LF
                ++ ");" ++ LF ++ LF)
            ++ post).
Proof.
  split; [reflexivity|].
  exact (generateSQL_self_many2many (fun r => r) [] [] Person [] []
           (Field.mk "friends" "ManyToManyField" false false "many2many" "Person")
           "postgres" eq_refl eq_refl eq_refl).
Defined.

Lemma generateDownSQL_join_before_owner_witness :
  Field.Relation (Field.mk "tags" "ManyToManyField" false false "many2many" "Tag")
  = "many2many" /\
  generateDownSQL (fun r => r) [Book] "postgres"
  = "DROP TABLE IF EXISTS book_tags;" ++ LF
    ++ "DROP TABLE IF EXISTS book;" ++ LF.
Proof.
  split; [reflexivity|].
  exact (generateDownSQL_join_before_owner (fun r => r) [] [] Book
           [ Field.mk "title" "CharField" false false "" "";
             Field.mk "author" "ForeignKey" false false "foreignkey" "Author" ]
           []
           (Field.mk "tags" "ManyToManyField" false false "many2many" "Tag")
           "postgres" eq_refl eq_refl).
Defined.

Lemma up_migration_is_schema_witness :
  input example_flags <> "" /\
  runPythonParser (input example_flags) (world_of [models_py]) = Some book_output /\
  dryRun example_flags = false /\
  exists sql : string,
    generateSQL (fun r => r) (Output.Models book_output) "postgres" = Some sql /\
    nth_error
      (written (snd (main (fun r => r) join_slash example_flags
                       (world_of [models_py])))) 1
    = Some ("out/migrations/20250410131459_create_tables.up.sql", sql).
Proof.
  assert (Hin : input example_flags <> "") by discriminate.
  split; [exact Hin|]. split; [reflexivity|]. split; [reflexivity|].
  exact (up_migration_is_schema (fun r => r) join_slash example_flags
           (world_of [models_py]) book_output Hin eq_refl eq_refl).
Defined.

Lemma unparsable_file_aborts_run_witness :
  In broken_py (walk (world_of [models_py; broken_py]) (input example_flags)) /\
  Py.endswith (Py.file broken_py) ".py" = true /\
  Py.parsed broken_py = None /\
  main (fun r => r) join_slash example_flags (world_of [models_py; broken_py])
  = (Exited 1, world_of [models_py; broken_py]).
Proof.
  assert (Hin : In broken_py
                  (walk (world_of [models_py; broken_py]) (input example_flags)))
    by (right; left; reflexivity).
  split; [exact Hin|]. split; [reflexivity|]. split; [reflexivity|].
  apply (unparsable_file_aborts_run (fun r => r) join_slash example_flags
           (world_of [models_py; broken_py]) broken_py Hin eq_refl eq_refl).
Defined.

(** * Further properties *)

(** ** More on the generators *)

Section MoreGenerators.
Variable caseLower : Z -> Z.

(** X3: [sqlType] gives [TEXT] exactly for the type tokens other than the
    five it maps to another type, whatever the dialect. *)
Theorem sqlType_text_by_default (ftype d : string) :
  sqlType ftype d = "TEXT" <->
  ~ In ftype ["IntegerField"; "FloatField"; "BooleanField"; "DateField";
              "DateTimeField"].
Proof.
  unfold sqlType. split.
  - intros H [<-|[<-|[<-|[<-|[<-|[]]]]]]; discriminate H.
  - intros H.
    repeat match goal with
           | |- context [ (?a =? ?b)%string ] =>
             destruct (String.eqb_spec a b); cbn [orb]
           end; try reflexivity; exfalso; apply H; subst; cbn; tauto.
Qed.

Lemma foreignKeyEntries_other (f : Field.t) :
  Field.Relation f <> "foreignkey" -> Field.Relation f <> "one2one" ->
  foreignKeyEntries caseLower f = [].
Proof.
  intros H1 H2. unfold foreignKeyEntries.
  apply String.eqb_neq in H1, H2. now rewrite H1, H2.
Qed.

Lemma joinTableText_other (m : Model.t) (f : Field.t) :
  Field.Relation f <> "many2many" -> joinTableText caseLower m f = "".
Proof.
  intros H. unfold joinTableText, writeJoinTable.
  apply String.eqb_neq in H. now rewrite H.
Qed.

Lemma joinDropText_other (m : Model.t) (f : Field.t) :
  Field.Relation f <> "many2many" -> joinDropText caseLower m f = "".
Proof.
  intros H. unfold joinDropText, writeJoinDrop.
  apply String.eqb_neq in H. now rewrite H.
Qed.

Lemma plain_entries (fs : list Field.t) :
  Forall plain fs -> flat_map (foreignKeyEntries caseLower) fs = [].
Proof.
  induction 1 as [|f fs (H1 & H2 & _) _ IH]; [reflexivity|].
  cbn [flat_map]. now rewrite foreignKeyEntries_other, IH.
Qed.

Lemma plain_joins (m : Model.t) (fs : list Field.t) :
  Forall plain fs -> cat (map (joinTableText caseLower m) fs) = "".
Proof.
  induction 1 as [|f fs (_ & _ & H3) _ IH]; [reflexivity|].
  cbn [map cat]. now rewrite joinTableText_other, IH.
Qed.

(** X4: a model whose fields carry none of the three relation kinds the
    generator knows gets its [id] and one column per field, no constraint
    and no join table. *)
Theorem generateSQL_plain_fields (m : Model.t) (d : string) :
  Forall plain (Model.Fields m) ->
  generateSQL caseLower [m] d
  = Some ("CREATE TABLE " ++ toSnake caseLower (Model.Name m) ++ " (" ++ LF
          ++ String.concat ("," ++ LF)
               ("    id SERIAL PRIMARY KEY"
                :: map (columnEntry caseLower d) (Model.Fields m))
          ++ LF ++ ");" ++ LF ++ LF).
Proof.
  intros Hp. rewrite generateSQL_text. cbn [map cat].
  unfold tableText, tableEntries.
  rewrite plain_entries, plain_joins, app_nil_r by assumption.
  now rewrite !append_nil_r.
Qed.

(** X5: the column of a field: its snake-case name, its type, [NOT NULL]
    unless the field is nullable, then [UNIQUE] if it is unique. *)
Theorem generateSQL_one_column (name fname ftype rel relto d : string)
    (nullable unique : bool) :
  rel <> "foreignkey" -> rel <> "one2one" -> rel <> "many2many" ->
  generateSQL caseLower
    [Model.mk name [Field.mk fname ftype nullable unique rel relto]] d
  = Some ("CREATE TABLE " ++ toSnake caseLower name ++ " (" ++ LF
          ++ "    id SERIAL PRIMARY KEY," ++ LF
          ++ "    " ++ toSnake caseLower fname ++ " " ++ sqlType ftype d
          ++ (if nullable then "" else " NOT NULL")
          ++ (if unique then " UNIQUE" else "") ++ LF
          ++ ");" ++ LF ++ LF).
Proof.
  intros H1 H2 H3. rewrite generateSQL_text. cbn [map cat].
  unfold tableText, tableEntries. cbn [Model.Fields Model.Name map flat_map].
  rewrite foreignKeyEntries_other, joinTableText_other by assumption.
  unfold columnEntry. cbn [Field.Name Field.Type_ Field.Nullable Field.Unique].
  cbn [app String.concat cat].
  destruct nullable, unique; cbn [negb]; unfold SEP;
    rewrite ?append_nil_r, !append_assoc; reflexivity.
Qed.

(** X6: a foreign-key or one-to-one field gets a column under its own name
    and, after it, a constraint on [<field>_id] that refers to the related
    table. *)
Theorem generateSQL_foreign_key_column (name fname ftype rel relto d : string)
    (nullable unique : bool) :
  rel = "foreignkey" \/ rel = "one2one" ->
  generateSQL caseLower
    [Model.mk name [Field.mk fname ftype nullable unique rel relto]] d
  = Some ("CREATE TABLE " ++ toSnake caseLower name ++ " (" ++ LF
          ++ "    id SERIAL PRIMARY KEY," ++ LF
          ++ "    " ++ toSnake caseLower fname ++ " " ++ sqlType ftype d
          ++ (if nullable then "" else " NOT NULL")
          ++ (if unique then " UNIQUE" else "") ++ "," ++ LF
          ++ "    FOREIGN KEY (" ++ toSnake caseLower fname ++ "_id) REFERENCES "
          ++ toSnake caseLower relto ++ "(id)" ++ LF
          ++ ");" ++ LF ++ LF).
Proof.
  intros Hrel. rewrite generateSQL_text. cbn [map cat].
  unfold tableText, tableEntries. cbn [Model.Fields Model.Name map flat_map].
  rewrite joinTableText_other
    by (cbn [Field.Relation]; destruct Hrel as [->| ->]; discriminate).
  assert (Hfk : foreignKeyEntries caseLower
                  (Field.mk fname ftype nullable unique rel relto)
                = ["    FOREIGN KEY (" ++ toSnake caseLower fname
                   ++ "_id) REFERENCES " ++ toSnake caseLower relto ++ "(id)"]).
  { unfold foreignKeyEntries. cbn [Field.Relation Field.Name Field.RelatedTo].
    destruct Hrel as [->| ->]; reflexivity. }
  rewrite Hfk. unfold columnEntry.
  cbn [Field.Name Field.Type_ Field.Nullable Field.Unique].
  cbn [app String.concat cat].
  destruct nullable, unique; cbn [negb]; unfold SEP;
    rewrite ?append_nil_r, !append_assoc; reflexivity.
Qed.


(** X7: the join table of a many-to-many field comes after the table of
    its model, among the join tables of the model in the order of the
    fields, and has the two columns [<model>_id] and [<related>_id]. *)
Theorem generateSQL_join_table (ms1 ms2 : list Model.t) (m : Model.t)
    (fs1 fs2 : list Field.t) (f : Field.t) (d : string) :
  Model.Fields m = (fs1 ++ f :: fs2)%list ->
  Field.Relation f = "many2many" ->
  exists a b : string,
    generateSQL caseLower ms1 d = Some a /\
    generateSQL caseLower ms2 d = Some b /\
    generateSQL caseLower (ms1 ++ m :: ms2) d
    = Some (a
            ++ ("CREATE TABLE " ++ toSnake caseLower (Model.Name m) ++ " (" ++ LF
                ++ String.concat ("," ++ LF) (tableEntries caseLower d m)
                ++ LF ++ ");" ++ LF ++ LF)
            ++ fold_left (writeJoinTable caseLower m) fs1 Builder.empty
            ++ ("CREATE TABLE " ++ toSnake caseLower (Model.Name m) ++ "_"
                ++ toSnake caseLower (Field.Name f) ++ " (" ++ LF
                ++ "    " ++ toSnake caseLower (Model.Name m)
                ++ "_id INTEGER REFERENCES "
                ++ toSnake caseLower (Model.Name m) ++ "(id)," ++ LF
                ++ "    " ++ toSnake caseLower (Field.RelatedTo f)
                ++ "_id INTEGER REFERENCES "
                ++ toSnake caseLower (Field.RelatedTo f) ++ "(id)" ++ LF
                ++ ");" ++ LF ++ LF)
            ++ fold_left (writeJoinTable caseLower m) fs2 Builder.empty
            ++ b).
Proof.
  intros Hfs Hrel.
  assert (HJ : joinTableText caseLower m f
               = "CREATE TABLE " ++ toSnake caseLower (Model.Name m) ++ "_"
                 ++ toSnake caseLower (Field.Name f) ++ " (" ++ LF
                 ++ "    " ++ toSnake caseLower (Model.Name m)
                 ++ "_id INTEGER REFERENCES "
                 ++ toSnake caseLower (Model.Name m) ++ "(id)," ++ LF
                 ++ "    " ++ toSnake caseLower (Field.RelatedTo f)
                 ++ "_id INTEGER REFERENCES "
                 ++ toSnake caseLower (Field.RelatedTo f) ++ "(id)" ++ LF
                 ++ ");" ++ LF ++ LF).
  { unfold joinTableText, writeJoinTable. rewrite Hrel.
    change (("many2many" =? "many2many")%string) with true. cbv iota.
    unfold Builder.WriteString, Builder.empty.
    rewrite !append_assoc. reflexivity. }
  exists (cat (map (tableText caseLower d) ms1)),
         (cat (map (tableText caseLower d) ms2)).
  split; [apply generateSQL_text|]. split; [apply generateSQL_text|].
  rewrite generateSQL_app. cbn [map cat].
  rewrite !(fold_write _ _ (writeJoinTable_text caseLower m)).
  change (Builder.empty ++ cat (map (joinTableText caseLower m) fs1))
    with (cat (map (joinTableText caseLower m) fs1)).
  change (Builder.empty ++ cat (map (joinTableText caseLower m) fs2))
    with (cat (map (joinTableText caseLower m) fs2)).
  rewrite <- HJ.
  unfold tableText at 2. rewrite Hfs, cat_split_field.
  rewrite !append_assoc. reflexivity.
Qed.

(** X8: [generateDownSQL] gives the empty text for no model, and for a
    list of models the texts of its parts, one after the other; the dialect
    plays no part. *)
Theorem generateDownSQL_concatenates (ms1 ms2 : list Model.t) (d d1 d2 : string) :
  generateDownSQL caseLower [] d = "" /\
  generateDownSQL caseLower (ms1 ++ ms2) d
  = generateDownSQL caseLower ms1 d1 ++ generateDownSQL caseLower ms2 d2.
Proof.
  split; [reflexivity|].
  now rewrite !generateDownSQL_text, map_app, cat_app.
Qed.

Lemma joins_created (m : Model.t) (fs : list Field.t) :
  cat (map (joinTableText caseLower m) fs)
  = cat (map createStmt
           (map (fun f => (joinName caseLower m f, joinBody caseLower m f))
              (filter many2many fs))).
Proof.
  induction fs as [|f fs IH]; [reflexivity|].
  cbn [map cat filter]. rewrite IH.
  unfold joinTableText at 1, writeJoinTable, many2many.
  destruct (Field.Relation f =? "many2many")%string; [|reflexivity].
  cbn [map cat]. f_equal.
  unfold createStmt, joinName, joinBody, Builder.WriteString, Builder.empty.
  cbn [fst snd]. rewrite !append_assoc. reflexivity.
Qed.

Lemma joins_dropped (m : Model.t) (fs : list Field.t) :
  cat (map (joinDropText caseLower m) fs)
  = cat (map dropStmt (map (joinName caseLower m) (filter many2many fs))).
Proof.
  induction fs as [|f fs IH]; [reflexivity|].
  cbn [map cat filter]. rewrite IH.
  unfold joinDropText at 1, writeJoinDrop, many2many.
  destruct (Field.Relation f =? "many2many")%string; [|reflexivity].
  cbn [map cat]. f_equal.
  unfold dropStmt, joinName, Builder.WriteString, Builder.empty.
  rewrite !append_assoc. reflexivity.
Qed.

(** X9: the schema is one CREATE TABLE statement per created table, the
    down migration one DROP TABLE IF EXISTS statement per dropped table,
    and the dropped tables are the created tables, in another order. *)
Theorem down_drops_what_up_creates (ms : list Model.t) (d : string) :
  generateSQL caseLower ms d
  = Some (cat (map createStmt (createdTables caseLower d ms))) /\
  generateDownSQL caseLower ms d
  = cat (map dropStmt (droppedTables caseLower ms)) /\
  Permutation (map fst (createdTables caseLower d ms))
    (droppedTables caseLower ms).
Proof.
  rewrite generateSQL_text, generateDownSQL_text. repeat split.
  - f_equal. induction ms as [|m ms IH]; [reflexivity|].
    cbn [map cat createdTables flat_map]. fold (createdTables caseLower d ms).
    rewrite map_app, cat_app, <- IH. f_equal.
    cbn [map cat]. rewrite <- joins_created.
    unfold tableText, createStmt. cbn [fst snd].
    now rewrite !append_assoc.
  - induction ms as [|m ms IH]; [reflexivity|].
    cbn [map cat droppedTables flat_map]. fold (droppedTables caseLower ms).
    rewrite map_app, cat_app, <- IH. f_equal.
    rewrite map_app, cat_app, <- joins_dropped. cbn [map cat].
    unfold dropsText, dropStmt. rewrite append_nil_r, ?append_assoc. reflexivity.
  - induction ms as [|m ms IH]; [constructor|].
    cbn [createdTables droppedTables flat_map].
    fold (createdTables caseLower d ms). fold (droppedTables caseLower ms).
    rewrite map_app. apply Permutation_app; [|exact IH].
    cbn [map fst]. rewrite map_map. cbn [fst].
    apply Permutation_cons_append.
Qed.

End MoreGenerators.

(** ** More on the run *)

Section MoreRun.
Variable caseLower : Z -> Z.
Variable filepath_Join : string -> string -> string.

(** X11: on the paths of [main] that end before the generators are
    called, no call of [write] is made and the clock is not read, so the
    world is as it was: the run ends with status 1 when the input path is
    empty or the parser fails, and returns in a dry run. *)
Theorem main_without_writes (flags : Flags) (w : World) :
  input flags = "" \/ runPythonParser (input flags) w = None \/
  dryRun flags = true ->
  snd (main caseLower filepath_Join flags w) = w /\
  fst (main caseLower filepath_Join flags w)
  = match runPythonParser (input flags) w with
    | Some _ => if (input flags =? "")%string then Exited 1 else Returned
    | None => Exited 1
    end.
Proof.
  intros H. unfold main.
  destruct (String.eqb_spec (input flags) "") as [Hin|Hin].
  { now destruct (runPythonParser (input flags) w). }
  destruct (runPythonParser (input flags) w) as [out|]; [|now split].
  destruct (dryRun flags); [now split|].
  destruct H as [H|[H|H]]; [contradiction|discriminate|discriminate].
Qed.

(** X12: when the two readings of the clock are the same, the up and the
    down migration are written under the same timestamp. *)
Theorem main_same_second (flags : Flags) (w : World) (out : Output.t) :
  input flags <> "" ->
  runPythonParser (input flags) w = Some out ->
  dryRun flags = false ->
  clock w (S (readings w)) = clock w (readings w) ->
  exists ts up down : string,
    ts = time.Format_20060102150405 (clock w (readings w)) /\
    nth_error (written (snd (main caseLower filepath_Join flags w)))
      (List.length (written w) + 1)
    = Some (filepath_Join (filepath_Join (output flags) "migrations")
              (ts ++ "_create_tables.up.sql"), up) /\
    nth_error (written (snd (main caseLower filepath_Join flags w)))
      (List.length (written w) + 2)
    = Some (filepath_Join (filepath_Join (output flags) "migrations")
              (ts ++ "_create_tables.down.sql"), down).
Proof.
  intros Hin Hp Hd Hc.
  rewrite (main_normal_run caseLower filepath_Join flags w out Hin Hp Hd).
  cbn [snd written]. rewrite Hc.
  do 3 eexists. split; [reflexivity|].
  rewrite !nth_error_app2 by lia.
  replace (List.length (written w) + 1 - List.length (written w))%nat
    with 1%nat by lia.
  replace (List.length (written w) + 2 - List.length (written w))%nat
    with 2%nat by lia.
  split; reflexivity.
Qed.


End MoreRun.

Lemma append_cancel_l (a b c : string) : a ++ b = a ++ c -> b = c.
Proof.
  induction a as [|x a IH]; cbn [append]; intros H; [exact H|].
  injection H as H. now apply IH.
Qed.

Lemma append_cancel_r (a b c : string) : a ++ c = b ++ c -> a = b.
Proof.
  revert b. induction a as [|x a IH]; intros [|y b] H.
  - reflexivity.
  - exfalso. apply (f_equal String.length) in H.
    cbn [append String.length] in H. rewrite length_append in H. lia.
  - exfalso. apply (f_equal String.length) in H.
    cbn [append String.length] in H. rewrite length_append in H. lia.
  - cbn [append] in H. injection H as -> H. f_equal. now apply IH.
Qed.

Lemma generateSQLCConfig_shape (d : string) :
  generateSQLCConfig d
  = ("version: " ++ String (ascii_of_nat 34) "2" ++ String (ascii_of_nat 34) LF
     ++ "sql:" ++ LF ++ "  - engine: ")
    ++ d
    ++ (LF ++ "    queries: " ++ String (ascii_of_nat 34) "./query.sql"
        ++ String (ascii_of_nat 34) LF
        ++ "    schema: " ++ String (ascii_of_nat 34) "./schema.sql"
        ++ String (ascii_of_nat 34) LF
        ++ "    gen:" ++ LF
        ++ "      go:" ++ LF
        ++ "        package: " ++ String (ascii_of_nat 34) "db"
        ++ String (ascii_of_nat 34) LF
        ++ "        out: " ++ String (ascii_of_nat 34) "./db"
        ++ String (ascii_of_nat 34) LF).
Proof.
  unfold generateSQLCConfig. rewrite !append_assoc. reflexivity.
Qed.

(** X10: the configuration carries the dialect as it is given: two
    dialects with the same configuration are the same. *)
Theorem generateSQLCConfig_injective (d1 d2 : string) :
  generateSQLCConfig d1 = generateSQLCConfig d2 -> d1 = d2.
Proof.
  rewrite !generateSQLCConfig_shape. intros H.
  apply append_cancel_l, append_cancel_r in H. exact H.
Qed.

(** ** More on the extractor *)

Section MoreExtractor.

Lemma for_app {A S : Type} (body : S -> A -> Py.outcome S) (xs ys : list A) (s : S) :
  Py.for_ (xs ++ ys) body s = Py.bind (Py.for_ xs body s) (Py.for_ ys body).
Proof.
  revert s. induction xs as [|x xs IH]; intros s; [reflexivity|].
  cbn [app Py.for_]. destruct (body s x); cbn [Py.bind]; [apply IH|reflexivity].
Qed.

(** A loop whose body only adds to what it is given adds to what it is
    given. *)
Lemma for_adds {A S : Type} (op : S -> S -> S) (e : S)
    (body : S -> A -> Py.outcome S) :
  (forall s, op s e = s) ->
  (forall a b c, op (op a b) c = op a (op b c)) ->
  (forall s x, body s x = Py.bind (body e x) (fun d => Py.Ok (op s d))) ->
  forall xs s,
    Py.for_ xs body s = Py.bind (Py.for_ xs body e) (fun d => Py.Ok (op s d)).
Proof.
  intros He Ha Hb xs. induction xs as [|x xs IH]; intros s.
  - cbn. now rewrite He.
  - cbn [Py.for_]. rewrite (Hb s x).
    destruct (body e x) as [d|err]; cbn [Py.bind]; [|reflexivity].
    rewrite (IH (op s d)), (IH d).
    destruct (Py.for_ xs body e) as [d'|err]; cbn [Py.bind]; [|reflexivity].
    now rewrite Ha.
Qed.

Lemma class_stmt_adds (fields : list Py.field) (stmt : ast.stmt) :
  Py.class_stmt fields stmt
  = Py.bind (Py.class_stmt [] stmt) (fun d => Py.Ok (fields ++ d)%list).
Proof.
  destruct stmt as [targets value|name bases body|];
    try (cbn; now rewrite app_nil_r).
  destruct value; try (cbn; now rewrite app_nil_r).
  unfold Py.class_stmt.
  destruct (Py.first targets) as [t|]; cbn [Py.bind]; [|reflexivity].
  destruct (Py.get_id t) as [fname|]; cbn [Py.bind]; [|reflexivity].
  destruct (Py.mem _ Py.relation_constructors).
  - destruct (Py.first args) as [a|]; cbn [Py.bind]; reflexivity.
  - cbn [Py.bind]. reflexivity.
Qed.

Lemma class_body_adds (body : list ast.stmt) (fields : list Py.field) :
  Py.for_ body Py.class_stmt fields
  = Py.bind (Py.for_ body Py.class_stmt []) (fun d => Py.Ok (fields ++ d)%list).
Proof.
  apply (for_adds (@app Py.field) []).
  - apply app_nil_r.
  - intros. symmetry. apply app_assoc.
  - apply class_stmt_adds.
Qed.

(** X14: the fields of a class body are the fields of its first part and
    then those of its second part; when a statement raises, the first that
    does decides. *)
Theorem class_body_in_order (b1 b2 : list ast.stmt) :
  Py.for_ (b1 ++ b2) Py.class_stmt []
  = then_list (Py.for_ b1 Py.class_stmt []) (Py.for_ b2 Py.class_stmt []).
Proof.
  rewrite for_app. unfold then_list.
  destruct (Py.for_ b1 Py.class_stmt []) as [f1|e]; cbn [Py.bind]; [|reflexivity].
  rewrite class_body_adds.
  now destruct (Py.for_ b2 Py.class_stmt []).
Qed.

Lemma top_level_adds (result : list Py.model) (node : ast.stmt) :
  Py.top_level result node
  = Py.bind (Py.top_level [] node) (fun d => Py.Ok (result ++ d)%list).
Proof.
  destruct node as [targets value|name bases body|];
    try (cbn; now rewrite app_nil_r).
  unfold Py.top_level. destruct (Py.mem "Model" _).
  - destruct (Py.for_ body Py.class_stmt []); reflexivity.
  - cbn. now rewrite app_nil_r.
Qed.

Lemma module_adds (body : list ast.stmt) (result : list Py.model) :
  Py.for_ body Py.top_level result
  = Py.bind (Py.for_ body Py.top_level []) (fun d => Py.Ok (result ++ d)%list).
Proof.
  apply (for_adds (@app Py.model) []).
  - apply app_nil_r.
  - intros. symmetry. apply app_assoc.
  - apply top_level_adds.
Qed.

Lemma scan_file_adds (acc : list Py.model * list string) (f : Py.SourceFile) :
  Py.scan_file acc f
  = Py.bind (Py.scan_file ([], []) f) (fun d => Py.Ok (pair_app acc d)).
Proof.
  unfold Py.scan_file, pair_app. destruct acc as [ms qs]. cbn [fst snd].
  destruct (Py.endswith (Py.file f) ".py");
    [|cbn; now rewrite !app_nil_r].
  destruct (Py.code f) as [text|]; [|reflexivity].
  destruct (Py.parsed f) as [body|]; [|reflexivity].
  rewrite (module_adds body ms).
  destruct (Py.for_ body Py.top_level []); reflexivity.
Qed.

Lemma walk_adds (fs : list Py.SourceFile) (acc : list Py.model * list string) :
  Py.for_ fs Py.scan_file acc
  = Py.bind (Py.for_ fs Py.scan_file ([], []))
      (fun d => Py.Ok (pair_app acc d)).
Proof.
  apply (for_adds pair_app ([], [])).
  - intros [a b]. unfold pair_app. cbn. now rewrite !app_nil_r.
  - intros [a1 a2] [b1 b2] [c1 c2]. unfold pair_app. cbn.
    now rewrite !app_assoc.
  - apply scan_file_adds.
Qed.

(** X15: the extraction of a list of files gives the models and queries of
    its first part and then those of its second part; when a file raises,
    the first that does decides and the files after it are not looked at. *)
Theorem extract_models_app (fs1 fs2 : list Py.SourceFile) :
  Py.extract_models (fs1 ++ fs2)
  = then_ (Py.extract_models fs1) (Py.extract_models fs2).
Proof.
  unfold Py.extract_models, then_. rewrite for_app.
  destruct (Py.for_ fs1 Py.scan_file ([], [])) as [[m1 q1]|e]; cbn [Py.bind];
    [|reflexivity].
  rewrite walk_adds.
  now destruct (Py.for_ fs2 Py.scan_file ([], [])) as [[m2 q2]|e].
Qed.

(** X16: the files whose name does not end in [.py] play no part in the
    extraction: they are neither read nor parsed. *)
Theorem extract_models_only_py (walk : list Py.SourceFile) :
  Py.extract_models walk = Py.extract_models (filter is_py walk).
Proof.
  unfold Py.extract_models. generalize (@nil Py.model, @nil string).
  induction walk as [|f fs IH]; intros acc; [reflexivity|].
  cbn [filter]. unfold is_py at 1.
  destruct (Py.endswith (Py.file f) ".py") eqn:E.
  - cbn [Py.for_]. destruct (Py.scan_file acc f); cbn [Py.bind];
      [apply IH|reflexivity].
  - cbn [Py.for_]. unfold Py.scan_file at 1. rewrite E. cbn [Py.bind]. apply IH.
Qed.

Lemma mem_In (s : string) (l : list string) : Py.mem s l = true <-> In s l.
Proof.
  unfold Py.mem. rewrite existsb_exists. split.
  - intros (x & Hx & E). apply String.eqb_eq in E. now subst.
  - intros H. exists s. split; [assumption|apply String.eqb_refl].
Qed.

(** X17: a class none of whose bases is the bare name [Model] is not a
    model, and its body is not looked at. *)
Theorem top_level_other_classes (result : list Py.model) (name : string)
    (bases : list ast.expr) (body : list ast.stmt) :
  ~ In (ast.Name "Model") bases ->
  Py.top_level result (ast.ClassDef name bases body) = Py.Ok result.
Proof.
  intros H. unfold Py.top_level.
  destruct (Py.mem "Model" (map Py.id_or_empty bases)) eqn:E; [|reflexivity].
  exfalso. apply H. apply mem_In, in_map_iff in E.
  destruct E as (b & Hb & Hin). destruct b; try discriminate Hb.
  cbn in Hb. now subst.
Qed.


(** X18: a statement of a class body that does not raise leaves the fields
    found so far as they are and adds at most one. *)
Theorem class_stmt_appends (fields fields' : list Py.field) (stmt : ast.stmt) :
  Py.class_stmt fields stmt = Py.Ok fields' ->
  exists d : list Py.field,
    fields' = (fields ++ d)%list /\ (List.length d <= 1)%nat.
Proof.
  rewrite class_stmt_adds.
  destruct (Py.class_stmt [] stmt) as [d|e] eqn:E; cbn [Py.bind];
    [|discriminate].
  intros H. injection H as <-. exists d. split; [reflexivity|].
  destruct stmt as [targets value|name bases body|];
    try (cbn in E; injection E as <-; cbn; lia).
  destruct value; try (cbn in E; injection E as <-; cbn; lia).
  unfold Py.class_stmt in E.
  destruct (Py.first targets) as [t|]; cbn [Py.bind] in E; [|discriminate].
  destruct (Py.get_id t) as [fname|]; cbn [Py.bind] in E; [|discriminate].
  destruct (Py.mem _ Py.relation_constructors).
  - destruct (Py.first args) as [a|]; cbn [Py.bind] in E; [|discriminate].
    injection E as <-. cbn. lia.
  - cbn [Py.bind] in E. injection E as <-. cbn. lia.
Qed.

(** X19: the relation kinds that the extractor records for the three
    relation constructors are [foreignkey], [onetoone] and [manytomany]. *)
Theorem class_stmt_relation_kinds (fields : list Py.field) (fname : string)
    (more : list ast.expr) (v a : ast.expr) (args : list ast.expr)
    (kws : list (option string * ast.expr)) :
  let declared ctor :=
    Py.class_stmt fields
      (ast.Assign (ast.Name fname :: more)
         (ast.Call (ast.Attribute v ctor) (a :: args) kws)) in
  let field ctor kind :=
    Py.Ok (fields ++ [Py.mkField fname ctor (Py.kwargs_get kws "null")
                        (Py.kwargs_get kws "unique") (Some kind)
                        (Some (Py.id_or_empty a))])%list in
  declared "ForeignKey" = field "ForeignKey" "foreignkey" /\
  declared "OneToOneField" = field "OneToOneField" "onetoone" /\
  declared "ManyToManyField" = field "ManyToManyField" "manytomany".
Proof. cbv zeta. split; [|split]; reflexivity. Qed.

Lemma kwargs_get_from (kws : list (option string * ast.expr)) (key : string)
    (acc : ast.value) :
  (forall k e, In (k, e) kws -> k <> Some key) ->
  fold_left
    (fun acc (k : option string * ast.expr) =>
       match fst k with
       | Some a => if (a =? key)%string then Py.s_or_value (snd k) else acc
       | None => acc
       end) kws acc = acc.
Proof.
  revert acc. induction kws as [|[k e] kws IH]; intros acc H; [reflexivity|].
  cbn [fold_left fst snd]. rewrite IH.
  - destruct k as [a|]; [|reflexivity].
    destruct (String.eqb_spec a key) as [->|]; [|reflexivity].
    now elim (H (Some key) e (or_introl eq_refl)).
  - intros k' e' Hin. apply (H k' e'). now right.
Qed.

(** X20: a keyword that is not given reads as [False], and of a keyword
    given more than once the last one counts. *)
Theorem kwargs_get_last_or_default (kws rest : list (option string * ast.expr))
    (key : string) (e : ast.expr) :
  (forall k e', In (k, e') rest -> k <> Some key) ->
  Py.kwargs_get rest key = ast.VBool false /\
  Py.kwargs_get (kws ++ (Some key, e) :: rest) key = Py.s_or_value e.
Proof.
  intros H. unfold Py.kwargs_get. split.
  - now apply kwargs_get_from.
  - rewrite fold_left_app. cbn [fold_left fst snd].
    rewrite String.eqb_refl. now apply kwargs_get_from.
Qed.

Lemma unmarshal_list_fails {A B : Type} (f : A -> option B) (l : list A) (x : A) :
  In x l -> f x = None -> unmarshal_list f l = None.
Proof.
  induction l as [|y l IH]; intros Hin Hx; [easy|].
  cbn [unmarshal_list]. destruct Hin as [->|Hin].
  - now rewrite Hx.
  - rewrite (IH Hin Hx). now destruct (f y).
Qed.

(** X21: when a field of an extracted model has a [null] or [unique]
    value that is neither a boolean nor [None], [runPythonParser] returns
    an error. *)
Theorem runPythonParser_flag_not_boolean (path : string) (w : World)
    (models : list Py.model) (queries : list string) (m : Py.model)
    (f : Py.field) :
  Py.extract_models (walk w path) = Py.Ok (models, queries) ->
  In m models -> In f (Py.fields m) ->
  unmarshal_bool (Py.nullable f) = None \/ unmarshal_bool (Py.unique f) = None ->
  runPythonParser path w = None.
Proof.
  intros He Hm Hf Hb. unfold runPythonParser. rewrite He.
  rewrite (unmarshal_list_fails unmarshal_model models m Hm); [reflexivity|].
  unfold unmarshal_model.
  rewrite (unmarshal_list_fails unmarshal_field (Py.fields m) f Hf); [reflexivity|].
  unfold unmarshal_field. destruct Hb as [-> | ->]; [reflexivity|].
  now destruct (unmarshal_bool (Py.nullable f)).
Qed.

End MoreExtractor.

(** ** More on the snake-case transform, the queries and the timestamp *)

Section MoreSnake.

Lemma map_bytes_length (f : ascii -> ascii) (s : string) :
  String.length (map_bytes f s) = String.length s.
Proof.
  induction s as [|c s IH]; [reflexivity|]. cbn. now rewrite IH.
Qed.

Lemma map_bytes_map (f g : ascii -> ascii) (s : string) :
  map_bytes f (map_bytes g s) = map_bytes (fun c => f (g c)) s.
Proof.
  induction s as [|c s IH]; [reflexivity|]. cbn. now rewrite IH.
Qed.

Lemma snakeByte_clean (c : ascii) :
  nospace (snakeByte c) && negb (capital (snakeByte c)) = true.
Proof.
  unfold snakeByte. destruct (Ascii.eqb_spec c " ") as [->|Hc]; [reflexivity|].
  apply andb_true_iff. split.
  - apply lowerByte_nospace. unfold nospace. apply negb_true_iff.
    now apply Ascii.eqb_neq.
  - unfold capital, strings.lowerByte. cbv zeta. pose proof (bval_range c).
    destruct ((65 <=? bval c) && (bval c <=? 90)) eqn:E.
    + rewrite andb_true_iff, !Z.leb_le in E. rewrite bval_chr by lia.
      apply negb_true_iff, andb_false_iff. right. apply Z.leb_gt. lia.
    + now rewrite E.
Qed.

(** X22: on a string of ASCII bytes [toSnake] works byte by byte, whatever
    the case tables: the result has the length of the argument and holds no
    space and no capital letter. *)
Theorem toSnake_ascii (caseLower : Z -> Z) (s : string) :
  all_bytes strings.isASCII s = true ->
  toSnake caseLower s = map_bytes snakeByte s /\
  String.length (toSnake caseLower s) = String.length s /\
  all_bytes (fun c => nospace c && negb (capital c)) (toSnake caseLower s) = true.
Proof.
  intros Ha.
  assert (E : toSnake caseLower s = map_bytes snakeByte s).
  { unfold toSnake. rewrite ReplaceAll_space, ToLower_ascii.
    - rewrite map_bytes_map. reflexivity.
    - apply (all_bytes_map _ strings.isASCII strings.isASCII); [|exact Ha].
      intros c Hc. now destruct (Ascii.eqb c " "). }
  rewrite E. split; [reflexivity|]. split; [apply map_bytes_length|].
  clear. induction s as [|c s IH]; [reflexivity|].
  cbn [map_bytes all_bytes]. now rewrite snakeByte_clean, IH.
Qed.

(** X23: the result of [toSnake] holds no space. *)
Theorem toSnake_no_space (caseLower : Z -> Z) (x : string) :
  LowerTable caseLower ->
  all_bytes nospace (toSnake caseLower x) = true.
Proof.
  intros table. unfold toSnake.
  apply ToLower_nospace; [assumption|apply ReplaceAll_nospace].
Qed.

End MoreSnake.

Section MoreQueries.

(** X24: every fragment collected from a file comes from a line of the
    file that holds [.objects.] and one of the three call markers, and is
    the provenance comment followed by that line, stripped. *)
Theorem query_lines_fragments (file code q : string) :
  In q (Py.query_lines file code) ->
  Py.contains code ".objects." = true /\
  exists line : string,
    In line (Py.splitlines code) /\
    Py.contains line ".objects." = true /\
    (Py.contains line "filter(" || Py.contains line "get("
     || Py.contains line "create(") = true /\
    q = "-- from: " ++ file ++ LF ++ "-- " ++ Py.strip line.
Proof.
  unfold Py.query_lines.
  destruct (Py.contains code ".objects."); [|easy].
  intros H. split; [reflexivity|].
  apply in_map_iff in H. destruct H as (line & <- & Hin).
  apply filter_In in Hin. destruct Hin as [Hin Hc].
  apply andb_true_iff in Hc. destruct Hc as [H1 H2].
  exists line. auto.
Qed.

End MoreQueries.

Section MoreTime.

Lemma pad_2 (n : nat) : (n < 100)%nat -> String.length (time.pad 2 n) = 2%nat.
Proof.
  intros H.
  assert (A : forallb (fun n => (String.length (time.pad 2 n) =? 2)%nat)
                (seq 0 100) = true) by (vm_compute; reflexivity).
  rewrite forallb_forall in A. apply Nat.eqb_eq, A, in_seq. lia.
Qed.

Lemma pad_4 (n : nat) : (n < 10000)%nat -> String.length (time.pad 4 n) = 4%nat.
Proof.
  intros H.
  assert (A : forallb (fun n => (String.length (time.pad 4 n) =? 4)%nat)
                (seq 0 10000) = true) by (vm_compute; reflexivity).
  rewrite forallb_forall in A. apply Nat.eqb_eq, A, in_seq. lia.
Qed.

(** X25: for a date of at most four digits of year, [timestamp] returns
    fourteen characters, reads the clock once and writes nothing. *)
Theorem timestamp_fourteen (w : World) :
  let t := clock w (readings w) in
  (time.Year t < 10000)%nat -> (time.Month t < 100)%nat ->
  (time.Day t < 100)%nat -> (time.Hour t < 100)%nat ->
  (time.Minute t < 100)%nat -> (time.Second t < 100)%nat ->
  String.length (fst (timestamp w)) = 14%nat /\
  readings (snd (timestamp w)) = S (readings w) /\
  written (snd (timestamp w)) = written w.
Proof.
  cbv zeta. intros Hy Hm Hd Hh Hmi Hs.
  unfold timestamp, time_Now. cbn [fst snd readings written].
  split; [|split; reflexivity].
  unfold time.Format_20060102150405.
  rewrite !length_append, pad_4, !pad_2 by assumption. reflexivity.
Qed.

End MoreTime.

(** ** More instances *)

Lemma generateSQL_plain_fields_witness :
  Forall plain [extracted_tags] /\
  generateSQL (fun r => r) [Model.mk "Book" [extracted_tags]] "postgres"
  = Some ("CREATE TABLE book (" ++ LF
          ++ "    id SERIAL PRIMARY KEY," ++ LF
          ++ "    tags TEXT NOT NULL" ++ LF
          ++ ");" ++ LF ++ LF).
Proof.
  assert (H : Forall plain [extracted_tags]).
  { constructor; [|constructor]. repeat split; discriminate. }
  split; [exact H|].
  exact (generateSQL_plain_fields (fun r => r)
           (Model.mk "Book" [extracted_tags]) "postgres" H).
Defined.

Lemma generateSQL_one_column_witness :
  generateSQL (fun r => r)
    [Model.mk "User" [Field.mk "email" "CharField" true true "" ""]] "postgres"
  = Some ("CREATE TABLE user (" ++ LF
          ++ "    id SERIAL PRIMARY KEY," ++ LF
          ++ "    email TEXT UNIQUE" ++ LF
          ++ ");" ++ LF ++ LF).
Proof.
  apply (generateSQL_one_column (fun r => r) "User" "email" "CharField" "" ""
           "postgres" true true); discriminate.
Defined.

Lemma generateSQL_foreign_key_column_witness :
  generateSQL (fun r => r)
    [Model.mk "Book" [Field.mk "author" "ForeignKey" false false "foreignkey" "Author"]]
    "postgres"
  = Some ("CREATE TABLE book (" ++ LF
          ++ "    id SERIAL PRIMARY KEY," ++ LF
          ++ "    author TEXT NOT NULL," ++ LF
          ++ "    FOREIGN KEY (author_id) REFERENCES author(id)" ++ LF
          ++ ");" ++ LF ++ LF).
Proof.
  apply (generateSQL_foreign_key_column (fun r => r) "Book" "author" "ForeignKey"
           "foreignkey" "Author" "postgres" false false).
  left. reflexivity.
Defined.

Lemma generateSQL_join_table_witness :
  exists a b : string,
    generateSQL (fun r => r) [] "postgres" = Some a /\
    generateSQL (fun r => r) [Person] "postgres" = Some b /\
    generateSQL (fun r => r) [Book; Person] "postgres"
    = Some (a
            ++ ("CREATE TABLE book (" ++ LF
                ++ "    id SERIAL PRIMARY KEY," ++ LF
                ++ "    title TEXT NOT NULL," ++ LF
                ++ "    author TEXT NOT NULL," ++ LF
                ++ "    tags TEXT NOT NULL," ++ LF
                ++ "    FOREIGN KEY (author_id) REFERENCES author(id)" ++ LF
                ++ ");" ++ LF ++ LF)
            ++ ""
            ++ ("CREATE TABLE book_tags (" ++ LF
                ++ "    book_id INTEGER REFERENCES book(id)," ++ LF
                ++ "    tag_id INTEGER REFERENCES tag(id)" ++ LF
                ++ ");" ++ LF ++ LF)
            ++ ""
            ++ b).
Proof.
  exact (generateSQL_join_table (fun r => r) [] [Person] Book
           [ Field.mk "title" "CharField" false false "" "";
             Field.mk "author" "ForeignKey" false false "foreignkey" "Author" ]
           []
           (Field.mk "tags" "ManyToManyField" false false "many2many" "Tag")
           "postgres" eq_refl eq_refl).
Defined.

Lemma generateSQLCConfig_injective_witness : "postgres" = "postgres".
Proof.
  exact (generateSQLCConfig_injective "postgres" "postgres" eq_refl).
Defined.

Lemma main_without_writes_witness :
  dryRun dry_flags = true /\
  snd (main (fun r => r) join_slash dry_flags (world_of [models_py]))
  = world_of [models_py] /\
  fst (main (fun r => r) join_slash dry_flags (world_of [models_py]))
  = Returned.
Proof.
  split; [reflexivity|].
  exact (main_without_writes (fun r => r) join_slash dry_flags
           (world_of [models_py]) (or_intror (or_intror eq_refl))).
Defined.

Lemma main_same_second_witness :
  clock (steady_world [models_py]) 1 = clock (steady_world [models_py]) 0 /\
  exists ts up down : string,
    ts = "20250410131500" /\
    nth_error
      (written (snd (main (fun r => r) join_slash example_flags
                       (steady_world [models_py])))) 1
    = Some ("out/migrations/" ++ ts ++ "_create_tables.up.sql", up) /\
    nth_error
      (written (snd (main (fun r => r) join_slash example_flags
                       (steady_world [models_py])))) 2
    = Some ("out/migrations/" ++ ts ++ "_create_tables.down.sql", down).
Proof.
  split; [reflexivity|].
  assert (Hin : input example_flags <> "") by discriminate.
  exact (main_same_second (fun r => r) join_slash example_flags
           (steady_world [models_py]) book_output Hin eq_refl eq_refl eq_refl).
Defined.


Lemma top_level_other_classes_witness :
  ~ In (ast.Name "Model") [ast.Attribute (ast.Name "models") "Model"] /\
  Py.top_level [] qualified_base = Py.Ok [].
Proof.
  assert (H : ~ In (ast.Name "Model")
                [ast.Attribute (ast.Name "models") "Model"]).
  { intros [E|[]]. discriminate E. }
  split; [exact H|].
  exact (top_level_other_classes [] "Book"
           [ast.Attribute (ast.Name "models") "Model"] [tuple_target] H).
Defined.

Lemma class_stmt_appends_witness :
  exists d : list Py.field,
    [Py.mkField "author" "ForeignKey" (ast.VBool false) (ast.VBool false)
       (Some "foreignkey") (Some "Author")]
    = ([] ++ d)%list /\ (List.length d <= 1)%nat.
Proof.
  exact (class_stmt_appends [] _
           (ast.Assign [ast.Name "author"]
              (ast.Call (ast.Attribute (ast.Name "models") "ForeignKey")
                 [ast.Name "Author"] []))
           eq_refl).
Defined.

Lemma kwargs_get_last_or_default_witness :
  Py.kwargs_get [(Some "max_length", ast.Constant (ast.VInt 255))] "null"
  = ast.VBool false /\
  Py.kwargs_get
    ([(Some "null", ast.Constant (ast.VBool false))]
     ++ (Some "null", ast.Constant (ast.VBool true))
        :: [(Some "max_length", ast.Constant (ast.VInt 255))]) "null"
  = ast.VBool true.
Proof.
  apply (kwargs_get_last_or_default
           [(Some "null", ast.Constant (ast.VBool false))]
           [(Some "max_length", ast.Constant (ast.VInt 255))]
           "null" (ast.Constant (ast.VBool true))).
  intros k e' [E|[]]. injection E as <- _. discriminate.
Defined.

Lemma runPythonParser_flag_not_boolean_witness :
  runPythonParser "app" (world_of [models_py; null_one_py]) = None.
Proof.
  apply (runPythonParser_flag_not_boolean "app" (world_of [models_py; null_one_py])
           _ _
           (Py.mkModel "Flag"
              [Py.mkField "flag" "BooleanField" (ast.VInt 1) (ast.VBool false)
                 None None])
           (Py.mkField "flag" "BooleanField" (ast.VInt 1) (ast.VBool false)
              None None)
           eq_refl).
  - right; left; reflexivity.
  - left; reflexivity.
  - left; reflexivity.
Defined.

Lemma toSnake_ascii_witness :
  toSnake (fun r => r) "My Model" = "my_model" /\
  String.length (toSnake (fun r => r) "My Model") = 8%nat /\
  all_bytes (fun c => nospace c && negb (capital c))
    (toSnake (fun r => r) "My Model") = true.
Proof.
  exact (toSnake_ascii (fun r => r) "My Model" eq_refl).
Defined.

Lemma toSnake_no_space_witness :
  all_bytes nospace (toSnake latin1Lower uber_name) = true.
Proof.
  exact (toSnake_no_space latin1Lower uber_name latin1Lower_table).
Defined.

Lemma query_lines_fragments_witness :
  Py.contains ("b = Book.objects.get(id=1)" ++ LF) ".objects." = true /\
  exists line : string,
    In line (Py.splitlines ("b = Book.objects.get(id=1)" ++ LF)) /\
    Py.contains line ".objects." = true /\
    (Py.contains line "filter(" || Py.contains line "get("
     || Py.contains line "create(") = true /\
    "-- from: views.py" ++ LF ++ "-- b = Book.objects.get(id=1)"
    = "-- from: " ++ "views.py" ++ LF ++ "-- " ++ Py.strip line.
Proof.
  apply (query_lines_fragments "views.py" ("b = Book.objects.get(id=1)" ++ LF)).
  left. reflexivity.
Defined.

Lemma timestamp_fourteen_witness :
  String.length (fst (timestamp (steady_world []))) = 14%nat /\
  readings (snd (timestamp (steady_world []))) = 1%nat /\
  written (snd (timestamp (steady_world []))) = [].
Proof.
  apply (timestamp_fourteen (steady_world [])); cbn; lia.
Defined.
